(** * Photan: peri-event windows and signal conditioning

    A shallow embedding of [src/core.py] (the [cont_var] / [photometry]
    classes) and [src/analysis_functions.py] ([cont_var_peh]).

    Modelling choices
    - Sample values are IEEE binary64 numbers (numpy's float64): Rocq's
      primitive [float].
    - [cont_var_peh] is embedded twice. The first embedding takes times,
      window bounds and the sampling rate as exact rationals [Q]; it
      carries the properties that do not depend on how a product or a sum
      is rounded: the lookup of an event, the layout of the table, the
      slicing. The second, [F64.cont_var_peh], computes as the interpreter
      does, in binary64 and with an [int()] that raises on a NaN and on an
      infinity; it carries the properties of the window bounds themselves
      and of the failures of the casts.
    - An exception is a value of [exn]; fallible code returns [result]
      ([DanglingReference] is the model's own: a reference with no object,
      which Python cannot produce).
    - Objects live in a heap indexed by references, so that "mutates self
      and returns self" can be stated.
    - numpy's summation and scipy's [butter] / [filtfilt] are interfaces
      (type classes): their code is not part of this repository. *)

From Stdlib Require Import ZArith QArith Qabs Qround Floats Lia.
From stdpp Require Import base option list gmap strings.

Close Scope Q_scope.
Open Scope Z_scope.

(** ** Exceptions and results *)

Inductive exn : Set :=
| IndexError
| ValueError
| OverflowError
| DanglingReference.

Inductive result (A : Type) : Type :=
| Ok (a : A)
| Raise (e : exn).
Arguments Ok {A} a.
Arguments Raise {A} e.

#[global] Instance result_ret : MRet result := fun _ a => Ok a.
#[global] Instance result_bind : MBind result := fun _ _ f m =>
  match m with
  | Ok a => f a
  | Raise e => Raise e
  end.

(** ** Python primitives used by the source *)

(** [int(x)] on an exact number: truncation toward zero. (On a float the
    cast can raise: [f64_int] below.) *)
Definition py_int (x : Q) : Z := Z.quot (Qnum x) (Z.pos (Qden x)).

(** Normalisation of one slice bound against the sequence length [len]
    (CPython's [PySlice_AdjustIndices] with step 1): a negative bound counts
    from the end, then the bound is clamped to [0, len]. *)
Definition adjust_index (len i : Z) : Z :=
  if i <? 0 then
    (if i + len <? 0 then 0 else i + len)
  else
    (if len <=? i then len else i).

(** [l[start:stop]]. *)
Definition py_slice {A} (l : list A) (start stop : Z) : list A :=
  let len := Z.of_nat (length l) in
  let s := adjust_index len start in
  let e := adjust_index len stop in
  take (Z.to_nat (e - s)) (drop (Z.to_nat s) l).

(** [np.where(ts == event)[0]]: the positions, in increasing order, at which
    [ts] equals [event]; [k] is the position of the head of [ts]. *)
Fixpoint where_eq_from (k : nat) (ts : list Q) (event : Q) : list nat :=
  match ts with
  | [] => []
  | t :: ts' =>
      if Qeq_bool t event
      then k :: where_eq_from (S k) ts' event
      else where_eq_from (S k) ts' event
  end.

Definition np_where_eq (ts : list Q) (event : Q) : list nat :=
  where_eq_from 0 ts event.

(** [a[0]] on an index array: [IndexError] when it is empty. *)
Definition item0 (a : list nat) : result nat :=
  match a with
  | [] => Raise IndexError
  | i :: _ => Ok i
  end.

(** ** The data model ([core.py], class [cont_var]) *)

Record cont_var (A : Type) : Type := ContVar {
  signal : list A;
  sr : Q;
  timestamps : list Q;
  name : option string;
  annotations : option (gmap string string)
}.
Arguments ContVar {A}.
Arguments signal {A}.
Arguments sr {A}.
Arguments timestamps {A}.
Arguments name {A}.
Arguments annotations {A}.

(** ** The table built by [pd.DataFrame(trials)]

    pandas builds the table from a list of rows: rows are aligned by
    position, there are as many columns as the longest row has entries, and
    a shorter row is completed with the missing-value marker, here
    [None]. (In a table of floats pandas writes the marker as a NaN, so
    there a sample that is itself a NaN reads like the marker; the model
    keeps the two apart, and nothing below depends on telling them
    apart in a table of floats.) *)

Record DataFrame (A : Type) : Type := Frame {
  df_columns : nat;
  df_values : list (list (option A))
}.
Arguments Frame {A}.
Arguments df_columns {A}.
Arguments df_values {A}.

Definition max_len {A} (rows : list (list A)) : nat :=
  foldr (fun r m => Nat.max (length r) m) 0%nat rows.

Definition pad_row {A} (w : nat) (r : list A) : list (option A) :=
  (Some <$> r) ++ replicate (w - length r)%nat None.

Definition pd_DataFrame {A} (rows : list (list A)) : DataFrame A :=
  let w := max_len rows in
  Frame w (pad_row w <$> rows).

Definition df_shape {A} (df : DataFrame A) : nat * nat :=
  (length (df_values df), df_columns df).

(** ** [analysis_functions.py]: [cont_var_peh]

    [cont_var_peh(data, ref_ts, min_max, name = None, idx = False)]. The
    flag is modelled as the code tests it: [idx = False] matches [ref_ts]
    against the timestamps, [idx = True] takes [ref_ts] as positions (the
    docstring words it the other way round). [name] is not used. *)

(** A sample index as a number. *)
Definition of_index (i : nat) : Q := inject_Z (Z.of_nat i).

Section Peh.
Context {A : Type}.

(** The body shared by both loops, around the position [pos] (an index, as
    a number): [start = pos - abs(min_max[0]) * data.sr],
    [end = pos + abs(min_max[1]) * data.sr] and
    [c_trial = data.signal[int(start):int(end)]]. *)
Definition window_start (data : cont_var A) (pos : Q) (min_max : Q * Q) : Q :=
  (pos - Qabs (fst min_max) * sr data)%Q.

Definition window_end (data : cont_var A) (pos : Q) (min_max : Q * Q) : Q :=
  (pos + Qabs (snd min_max) * sr data)%Q.

Definition c_trial (data : cont_var A) (pos : Q) (min_max : Q * Q) : list A :=
  let start := window_start data pos min_max in
  let end_ := window_end data pos min_max in
  py_slice (signal data) (py_int start) (py_int end_).

(** [for event in ref_ts] of the branch [not idx]; [trials] is the list
    the loop appends to. *)
Fixpoint peh_by_timestamp (data : cont_var A) (min_max : Q * Q)
    (ref_ts : list Q) (trials : list (list A)) : result (list (list A)) :=
  match ref_ts with
  | [] => Ok trials
  | event :: rest =>
      idx_evt ← item0 (np_where_eq (timestamps data) event);
      let row := c_trial data (of_index idx_evt) min_max in
      peh_by_timestamp data min_max rest (trials ++ [row])
  end.

(** [for event in ref_ts] of the branch [idx]. *)
Fixpoint peh_by_index (data : cont_var A) (min_max : Q * Q)
    (ref_ts : list Q) (trials : list (list A)) : result (list (list A)) :=
  match ref_ts with
  | [] => Ok trials
  | event :: rest =>
      let row := c_trial data event min_max in
      peh_by_index data min_max rest (trials ++ [row])
  end.

Definition cont_var_peh (data : cont_var A) (ref_ts : list Q)
    (min_max : Q * Q) (name : option string) (idx : bool)
    : result (DataFrame A) :=
  trials ← (if negb idx
            then peh_by_timestamp data min_max ref_ts []
            else peh_by_index data min_max ref_ts []);
  mret (pd_DataFrame trials).
End Peh.

(** ** Specification-level notions for the extraction

    These follow the wording of the specification and are compared with the
    definitions above. *)

#[global] Instance Qeq_decision (x y : Q) : Decision (x == y)%Q := Qeq_dec x y.

(** "the sample index [i] such that [timestamps[i] == r] exactly (first
    exact match)". *)
Definition first_exact_match (ts : list Q) (r : Q) : option nat :=
  fst <$> list_find (fun t => (t == r)%Q) ts.

(** Truncation toward zero, in words: round down a non-negative number,
    round up a negative one. *)
Definition toward_zero (x : Q) : Z :=
  if Qle_bool 0 x then Qfloor x else Qceiling x.

(** The samples at positions [lo <= k < hi], clipped to the sequence. *)
Definition samples_between {A} (l : list A) (lo hi : nat) : list A :=
  take (hi - lo)%nat (drop lo l).

(** The position a reference point resolves to: itself in index mode, the
    index of its first exact match in timestamp mode. *)
Definition resolve {A} (data : cont_var A) (idx : bool) (r : Q) : option Q :=
  if idx then Some r
  else of_index <$> first_exact_match (timestamps data) r.

(** [i] is the first position of [ts] holding exactly [r]. *)
Definition first_match_at (ts : list Q) (r : Q) (i : nat) : Prop :=
  (exists t, ts !! i = Some t /\ (t == r)%Q) /\
  forall j t', ts !! j = Some t' -> (j < i)%nat -> ~ (t' == r)%Q.

(** The recording used in the examples: [n] samples 0, 1, 2, ... taken at
    [rate] samples per unit of time, sample [k] at time [k / rate]. *)
Definition ramp (n : nat) (rate : positive) : cont_var Z :=
  ContVar (Z.of_nat <$> seq 0 n) (Z.pos rate # 1)%Q
          ((fun k => Z.of_nat k # rate)%Q <$> seq 0 n) None None.

(** The timestamps 0.0, 0.1, 0.2, ... of a recording at 10 samples per unit
    of time. *)
Definition tenths (n : nat) : list Q :=
  (fun k => Z.of_nat k # 10)%Q <$> seq 0 n.

(** The entries of a row, and of row [k] of a table, that are not the
    missing-value marker. *)
Definition strip_markers {A} (cells : list (option A)) : list A :=
  omap (M:=list) (fun c : option A => c) cells.

Definition present {A} (df : DataFrame A) (k : nat) : option (list A) :=
  strip_markers <$> (df_values df !! k : option (list (option A))).

(** ** The numeric libraries the conditioning methods call

    [np.mean] and [np.std] reduce with numpy's summation, whose order of
    additions is numpy's own; it is an interface here. The same holds for
    scipy's filter design and zero-phase filter. *)

Class NumPy := {
  add_reduce : list float -> float
}.

Inductive btype : Set := lowpass | highpass.
Inductive padtype : Set := odd | even | constant | nopad.

Class SciPy := {
  (** [butter(N, Wn, btype, fs=fs)], returning [(b, a)] *)
  butter : Z -> Q -> btype -> option Q -> result (list float * list float);
  (** [filtfilt(b, a, x, padtype=padtype)] *)
  filtfilt : list float -> list float -> list float -> padtype ->
             result (list float)
}.

(** The documented shape contract of [filtfilt]: "the filtered output with
    the same shape as x". *)
Class SciPyShape `{SciPy} : Prop :=
  filtfilt_shape : forall b a x pt y,
    filtfilt b a x pt = Ok y -> length y = length x.

(** The number of elements as a float (numpy divides a sum by the count). *)
Definition float_of_nat (n : nat) : float :=
  PrimFloat.of_uint63 (Uint63.of_Z (Z.of_nat n)).

Section NumPyFunctions.
Context `{NumPy}.

(** [np.mean(a)] *)
Definition np_mean (a : list float) : float :=
  (add_reduce a / float_of_nat (length a))%float.

(** [np.var(a, ddof=ddof)]: the mean of the squared deviations, with
    divisor [max(n - ddof, 0)]. *)
Definition np_var (a : list float) (ddof : nat) : float :=
  let arrmean := np_mean a in
  let x := (fun v => (v - arrmean)%float) <$> a in
  let x := (fun d => (d * d)%float) <$> x in
  (add_reduce x / float_of_nat (length a - ddof))%float.

(** [np.std(a)]; [ddof] defaults to 0. *)
Definition np_std (a : list float) : float :=
  PrimFloat.sqrt (np_var a 0).
End NumPyFunctions.

(** ** Objects and methods ([core.py], class [photometry]) *)

Definition ref := positive.
Abbreviation photometry := (cont_var float).
Abbreviation heap := (gmap ref photometry).

(** A method body: it reads and writes the heap and returns or raises. *)
Definition py (A : Type) : Type := heap -> result A * heap.

#[global] Instance py_ret : MRet py := fun _ a h => (Ok a, h).
#[global] Instance py_bind : MBind py := fun _ _ f m h =>
  match m h with
  | (Ok a, h') => f a h'
  | (Raise e, h') => (Raise e, h')
  end.

(** A call into a library that may raise. *)
Definition call {A} (r : result A) : py A := fun h => (r, h).

(** [self.f] *)
Definition getattr {B} (self : ref) (f : photometry -> B) : py B := fun h =>
  match h !! self with
  | Some o => (Ok (f o), h)
  | None => (Raise DanglingReference, h)
  end.

(** The object [o] after [o.signal = y]. *)
Definition with_signal (o : photometry) (y : list float) : photometry :=
  ContVar y (sr o) (timestamps o) (name o) (annotations o).

(** [self.signal = y] *)
Definition set_signal (self : ref) (y : list float) : py unit := fun h =>
  match h !! self with
  | Some o => (Ok tt, <[self := with_signal o y]> h)
  | None => (Raise DanglingReference, h)
  end.

Section Photometry.
Context `{NumPy} `{SciPy}.

Definition debleach (self : ref) (low : Q) : py ref :=
  fs ← getattr self sr;
  ba ← call (butter 3 low highpass (Some fs));
  x ← getattr self signal;
  y ← call (filtfilt ba.1 ba.2 x even);
  _ ← set_signal self y;
  mret self.

Definition lp_filter (self : ref) (high : Q) : py ref :=
  fs ← getattr self sr;
  ba ← call (butter 3 high lowpass (Some fs));
  x ← getattr self signal;
  y ← call (filtfilt ba.1 ba.2 x even);
  _ ← set_signal self y;
  mret self.

Definition zscore (self : ref) : py ref :=
  x ← getattr self signal;
  let avg := np_mean x in
  x ← getattr self signal;
  let std := np_std x in
  x ← getattr self signal;
  let z_score := (fun v => ((v - avg) / std)%float) <$> x in
  _ ← set_signal self z_score;
  mret self.
End Photometry.

(** The three conditioning operations, as data. *)
Inductive conditioning : Type :=
| Debleach (low : Q)
| LowPassFilter (high : Q)
| ZScore.

Definition run_conditioning `{NumPy} `{SciPy} (op : conditioning) (self : ref)
    : py ref :=
  match op with
  | Debleach low => debleach self low
  | LowPassFilter high => lp_filter self high
  | ZScore => zscore self
  end.

(** ** Reference instances of the library interfaces

    Executable stand-ins, used to run the methods on concrete recordings:
    a left-to-right sum, and a forward-backward filter (transposed direct
    form II, started at rest) over an extended signal. *)

Definition sequential_sum (a : list float) : float :=
  fold_left PrimFloat.add a 0%float.

Definition numpy_sequential : NumPy := {| add_reduce := sequential_sum |}.

Fixpoint tdf2_update (bt at_ zt : list float) (x y : float) : list float :=
  match bt, at_, zt with
  | bi :: bt', ai :: at', zi :: zt' =>
      (bi * x + zi - ai * y)%float :: tdf2_update bt' at' zt' x y
  | _, _, _ => []
  end.

Fixpoint lfilter (b a z : list float) (xs : list float) : list float :=
  match xs with
  | [] => []
  | x :: xs' =>
      let y := (hd 0 b * x + hd 0 z)%float in
      y :: lfilter b a (tdf2_update (tl b) (tl a) (tl z ++ [0%float]) x y) xs'
  end.

(** [x[n:0:-1]] and [x[-2:-(n+2):-1]] *)
Definition left_mirror (x : list float) (n : nat) : list float :=
  rev (take n (drop 1 x)).
Definition right_mirror (x : list float) (n : nat) : list float :=
  rev (take n (drop (length x - n - 1) x)).

Definition extend (pt : padtype) (x : list float) (n : nat) : list float :=
  match pt with
  | even => left_mirror x n ++ x ++ right_mirror x n
  | odd =>
      ((fun v => (2 * hd 0 x - v)%float) <$> left_mirror x n) ++ x ++
      ((fun v => (2 * List.last x 0 - v)%float) <$> right_mirror x n)
  | constant =>
      replicate n (hd 0%float x) ++ x ++ replicate n (List.last x 0%float)
  | nopad => x
  end.

Definition ref_filtfilt (b a x : list float) (pt : padtype)
    : result (list float) :=
  let ntaps := Nat.max (length a) (length b) in
  let edge := match pt with nopad => 0%nat | _ => (3 * ntaps)%nat end in
  if (length x <=? edge)%nat then Raise ValueError
  else
    let ext := extend pt x edge in
    let rest := replicate (ntaps - 1) 0%float in
    let y := lfilter b a rest ext in
    let y := rev (lfilter b a rest (rev y)) in
    Ok (take (length y - 2 * edge) (drop edge y)).

(** The third-order Butterworth design at a quarter of the sampling rate,
    the one design whose coefficients are rational:
    [a = 1, 0, 1/3, 0] and [b = 1/6, 1/2, 1/2, 1/6] (signs alternate for the
    high-pass). Other requests are refused. *)
Definition halfband_butter (N : Z) (Wn : Q) (bt : btype) (fs : option Q)
    : result (list float * list float) :=
  match fs with
  | Some f =>
      if (N =? 3) && Qeq_bool (4 * Wn)%Q f then
        let a := [1; 0; 1 / 3; 0]%float in
        match bt with
        | lowpass => Ok ([1 / 6; 1 / 2; 1 / 2; 1 / 6]%float, a)
        | highpass => Ok ([1 / 6; - (1 / 2); 1 / 2; - (1 / 6)]%float, a)
        end
      else Raise ValueError
  | None => Raise ValueError
  end.

Definition scipy_reference : SciPy :=
  {| butter := halfband_butter; filtfilt := ref_filtfilt |}.

(** ** Specification-level notions for the conditioning methods *)

(** The invariant of the data model: every recording has as many samples as
    timestamps. *)
Definition well_formed (h : heap) : Prop :=
  forall l o, h !! l = Some o -> length (signal o) = length (timestamps o).

(** "a 3rd-order Butterworth filter of type [bt] with critical frequency
    [cutoff] given directly in Hz relative to the sampling rate, applied as
    a zero-phase filter with even padding". *)
Definition butterworth3_zero_phase `{SciPy} (bt : btype) (cutoff : Q)
    (o : photometry) : result (list float) :=
  ba ← butter 3 cutoff bt (Some (sr o));
  filtfilt ba.1 ba.2 (signal o) even.

(** "population mean" and "population standard deviation": the sum divided
    by the number of samples, and the square root of the mean squared
    deviation, with no Bessel correction of the divisor. *)
Definition population_mean `{NumPy} (x : list float) : float :=
  (add_reduce x / float_of_nat (length x))%float.

Definition population_std `{NumPy} (x : list float) : float :=
  let m := population_mean x in
  PrimFloat.sqrt
    (add_reduce ((fun v => ((v - m) * (v - m))%float) <$> x)
     / float_of_nat (length x))%float.

(** What a method leaves behind: the heap [h] with the signal of [self]
    replaced by the outcome [r], or [h] itself when [r] is an exception. *)
Definition store_signal (self : ref) (o : photometry)
    (r : result (list float)) (h : heap) : result ref * heap :=
  match r with
  | Ok y => (Ok self, <[self := with_signal o y]> h)
  | Raise e => (Raise e, h)
  end.

(** Recordings for the examples. *)
Definition two_samples : photometry :=
  ContVar [1; 3]%float (10 # 1)%Q (tenths 2) None None.

Definition constant_twos : photometry :=
  ContVar [2; 2; 2]%float (10 # 1)%Q (tenths 3) None None.

Definition constant_tenths : photometry :=
  ContVar [1 / 10; 1 / 10; 1 / 10]%float (10 # 1)%Q (tenths 3) None None.

Definition sawtooth : photometry :=
  ContVar ((fun k => float_of_nat (k mod 3)) <$> seq 0 20) (4 # 1)%Q
          ((fun k => (Z.of_nat k # 4)%Q) <$> seq 0 20)
          (Some "sawtooth"%string) None.

(** ** The window arithmetic in binary64

    The arithmetic on floats, as numpy evaluates it. *)

(** [int(x)] on a float: the integer part, [ValueError] on a NaN and
    [OverflowError] on an infinity. *)
Definition f64_int (x : float) : result Z :=
  match Prim2SF x with
  | S754_zero _ => Ok 0
  | S754_finite s m e =>
      let v := match e with
               | Zneg k => Z.shiftr (Z.pos m) (Z.pos k)
               | _ => Z.shiftl (Z.pos m) e
               end in
      Ok (if s then - v else v)
  | S754_infinity _ => Raise OverflowError
  | S754_nan => Raise ValueError
  end.

(** The two slice bounds of the event at index [idx_evt]. *)
Definition f64_bounds (idx_evt : nat) (min_max : float * float) (sr : float)
    : result (Z * Z) :=
  let start := (float_of_nat idx_evt - abs (fst min_max) * sr)%float in
  let end_ := (float_of_nat idx_evt + abs (snd min_max) * sr)%float in
  s ← f64_int start;
  e ← f64_int end_;
  mret (s, e).

(** [np.where(ts == event)[0]] on floats; [k] is the position of the head
    of [ts]. *)
Fixpoint f64_where_eq_from (k : nat) (ts : list float) (event : float)
    : list nat :=
  match ts with
  | [] => []
  | t :: ts' =>
      if (t =? event)%float
      then k :: f64_where_eq_from (S k) ts' event
      else f64_where_eq_from (S k) ts' event
  end.

(** The timestamps 0.0, 0.1, ... as floats: [k / 10], correctly rounded. *)
Definition f64_tenths (n : nat) : list float :=
  (fun k => (float_of_nat k / 10)%float) <$> seq 0 n.

(** The number a finite float stands for: [(-1)^s * m * 2^e]. *)
Definition f64_value (x : float) : option Q :=
  match Prim2SF x with
  | S754_zero _ => Some 0%Q
  | S754_finite s m e =>
      let n := if s then Z.neg m else Z.pos m in
      Some (match e with
            | Zneg k => (n # Pos.pow 2 k)%Q
            | _ => inject_Z (n * 2 ^ e)
            end)
  | S754_infinity _ => None
  | S754_nan => None
  end.

(** ** [cont_var_peh] in binary64

    The function again, with the numbers the interpreter computes with:
    the sampling rate, the timestamps, the reference values and the window
    bounds are binary64 numbers, [-], [+] and [*] round to nearest, [==]
    is the comparison of floats (a NaN equals nothing, not even itself),
    and [int()] raises on a NaN and on an infinity. The index found by
    [np.where] is converted to a float by the subtraction and the
    addition, as numpy does for [int64 - float64].

    An argument given as an integer is the float of the same value, which
    is exact below 2^53: the arithmetic of Python and numpy integers
    beyond that (unbounded, or wrapping at 64 bits) is not modelled. *)

Module F64.

Record cont_var (A : Type) : Type := ContVar {
  signal : list A;
  sr : float;
  timestamps : list float;
  name : option string;
  annotations : option (gmap string string)
}.
Arguments ContVar {A}.
Arguments signal {A}.
Arguments sr {A}.
Arguments timestamps {A}.
Arguments name {A}.
Arguments annotations {A}.

(** [np.where(ts == event)[0]] *)
Definition np_where_eq (ts : list float) (event : float) : list nat :=
  f64_where_eq_from 0 ts event.

Section Peh.
Context {A : Type}.

(** [start = pos - abs(min_max[0]) * data.sr] and
    [end = pos + abs(min_max[1]) * data.sr] *)
Definition window_start (data : cont_var A) (pos : float)
    (min_max : float * float) : float :=
  (pos - abs (fst min_max) * sr data)%float.

Definition window_end (data : cont_var A) (pos : float)
    (min_max : float * float) : float :=
  (pos + abs (snd min_max) * sr data)%float.

(** [c_trial = data.signal[int(start):int(end)]]: the two casts, left to
    right, then the slice. *)
Definition c_trial (data : cont_var A) (pos : float)
    (min_max : float * float) : result (list A) :=
  let start := window_start data pos min_max in
  let end_ := window_end data pos min_max in
  lo ← f64_int start;
  hi ← f64_int end_;
  mret (py_slice (signal data) lo hi).

(** [for event in ref_ts] of the branch [not idx] *)
Fixpoint peh_by_timestamp (data : cont_var A) (min_max : float * float)
    (ref_ts : list float) (trials : list (list A))
    : result (list (list A)) :=
  match ref_ts with
  | [] => Ok trials
  | event :: rest =>
      idx_evt ← item0 (np_where_eq (timestamps data) event);
      row ← c_trial data (float_of_nat idx_evt) min_max;
      peh_by_timestamp data min_max rest (trials ++ [row])
  end.

(** [for event in ref_ts] of the branch [idx] *)
Fixpoint peh_by_index (data : cont_var A) (min_max : float * float)
    (ref_ts : list float) (trials : list (list A))
    : result (list (list A)) :=
  match ref_ts with
  | [] => Ok trials
  | event :: rest =>
      row ← c_trial data event min_max;
      peh_by_index data min_max rest (trials ++ [row])
  end.

Definition cont_var_peh (data : cont_var A) (ref_ts : list float)
    (min_max : float * float) (name : option string) (idx : bool)
    : result (DataFrame A) :=
  trials ← (if negb idx
            then peh_by_timestamp data min_max ref_ts []
            else peh_by_index data min_max ref_ts []);
  mret (pd_DataFrame trials).
End Peh.

(** *** Specification-level notions *)

(** The position a reference point resolves to: itself in index mode, the
    index of its first exact match, as a float, in timestamp mode. *)
Definition resolve {A} (data : cont_var A) (idx : bool) (r : float)
    : result float :=
  if idx then Ok r
  else i ← item0 (np_where_eq (timestamps data) r); mret (float_of_nat i).

(** The row of one reference point. *)
Definition row_of {A} (data : cont_var A) (idx : bool)
    (min_max : float * float) (r : float) : result (list A) :=
  pos ← resolve data idx r; c_trial data pos min_max.

(** The row the specification's formula describes for an event at index
    [i]: [start = i - floor(|before| * sr)] and
    [end = i + floor(|after| * sr)], the products being the floats the
    code computes. *)
Definition floor_window {A} (data : cont_var A) (i : Z)
    (min_max : float * float) : option (list A) :=
  before ← f64_value (abs (fst min_max) * sr data)%float;
  after ← f64_value (abs (snd min_max) * sr data)%float;
  Some (py_slice (signal data) (i - Qfloor before) (i + Qfloor after)).

(** The recording of the examples: [n] samples 0, 1, 2, ... taken at
    [rate] samples per unit of time, sample [k] at time [k / rate]. *)
Definition ramp (n rate : nat) : cont_var Z :=
  ContVar (Z.of_nat <$> seq 0 n) (float_of_nat rate)
          ((fun k => (float_of_nat k / float_of_nat rate)%float) <$> seq 0 n)
          None None.

End F64.

(** ** Notions used by the further properties *)

(** The rows of a table without their missing-value markers. *)
Definition df_rows {A} (df : DataFrame A) : list (list A) :=
  strip_markers <$> df_values df.

(** A table with a function applied to every sample. *)
Definition df_map {A B} (f : A -> B) (df : DataFrame A) : DataFrame B :=
  Frame (df_columns df)
        (fmap (M:=list) (fmap (M:=list) (fmap (M:=option) f)) (df_values df)).

(** ** Construction ([core.py], [cont_var.__init__] and
    [photometry.__init__])

    [photometry(signal, sampling_rate, timestamps, name, annotations)]
    creates an object and runs [photometry.__init__], which hands its
    arguments to [cont_var.__init__]; that one assigns the five attributes.
    The new object gets a reference no object of the heap has. *)

Definition cont_var_init (signal : list float) (sampling_rate : Q)
    (timestamps : list Q) (name : option string)
    (annotations : option (gmap string string)) : py ref := fun h =>
  let self := fresh (dom h) in
  (Ok self,
   <[self := {| sr := sampling_rate; signal := signal;
                timestamps := timestamps; name := name;
                annotations := annotations |}]> h).

Definition photometry_init (signal : list float) (sampling_rate : Q)
    (timestamps : list Q) (name : option string)
    (annotations : option (gmap string string)) : py ref :=
  cont_var_init signal sampling_rate timestamps name annotations.

(** ** Chained calls

    [obj.op1(...).op2(...)...]: each method is called on what the one
    before returned; an exception ends the chain. *)
Fixpoint chain `{NumPy} `{SciPy} (ops : list conditioning) (self : ref)
    : py ref :=
  match ops with
  | [] => mret self
  | op :: ops' => run_conditioning op self ≫= chain ops'
  end.

(** * Properties *)

(** ** Python primitives *)

Section PyIntFacts.
Local Open Scope Z_scope.

Lemma py_int_toward_zero x : py_int x = toward_zero x.
Proof.
  destruct x as [n d]. unfold py_int, toward_zero, Qle_bool, Qceiling, Qfloor.
  cbn [Qnum Qden]. rewrite Z.mul_1_r, Z.mul_0_l.
  destruct (Z.leb_spec 0 n) as [Hn|Hn].
  - apply Z.quot_div_nonneg; lia.
  - rewrite <- (Z.opp_involutive n) at 1.
    rewrite Z.quot_opp_l by lia.
    rewrite Z.quot_div_nonneg by lia. reflexivity.
Qed.

#[global] Instance toward_zero_proper : Proper (Qeq ==> eq) toward_zero.
Proof.
  intros x y Hxy. unfold toward_zero.
  assert (Qle_bool 0 x = Qle_bool 0 y) as ->.
  { apply eq_true_iff_eq. rewrite !Qle_bool_iff, Hxy. reflexivity. }
  destruct (Qle_bool 0 y).
  - apply Qfloor_comp, Hxy.
  - apply Qceiling_comp, Hxy.
Qed.

#[global] Instance py_int_proper : Proper (Qeq ==> eq) py_int.
Proof.
  intros x y Hxy. rewrite !py_int_toward_zero. apply toward_zero_proper, Hxy.
Qed.

End PyIntFacts.

Section SliceFacts.
Context {A : Type}.
Implicit Types l : list A.
Local Open Scope Z_scope.

Lemma adjust_index_range len i :
  0 <= len -> 0 <= adjust_index len i <= len.
Proof.
  intros Hlen. unfold adjust_index.
  repeat match goal with
  | |- context [Z.ltb ?a ?b] => destruct (Z.ltb_spec a b)
  | |- context [Z.leb ?a ?b] => destruct (Z.leb_spec a b)
  end; lia.
Qed.

Lemma adjust_index_nonneg len i :
  0 <= i -> adjust_index len i = Z.min i len.
Proof.
  intros Hi. unfold adjust_index.
  destruct (Z.ltb_spec i 0); [lia|].
  destruct (Z.leb_spec len i); lia.
Qed.

(** A negative bound [-len <= i < 0] names position [len + i]. *)
Lemma adjust_index_wraps len i :
  - len <= i < 0 -> adjust_index len i = len + i.
Proof.
  intros Hi. unfold adjust_index.
  destruct (Z.ltb_spec i 0); [|lia].
  destruct (Z.ltb_spec (i + len) 0); lia.
Qed.

Lemma samples_between_lookup l lo hi k :
  samples_between l lo hi !! k =
    if decide (lo + k < hi)%nat then l !! (lo + k)%nat else None.
Proof.
  unfold samples_between. case_decide.
  - rewrite lookup_take_lt by lia. apply lookup_drop.
  - apply lookup_take_ge. lia.
Qed.

Lemma samples_between_length l lo hi :
  length (samples_between l lo hi) =
    (Nat.min hi (length l) - lo)%nat.
Proof. unfold samples_between. rewrite length_take, length_drop. lia. Qed.

(** With bounds that are not negative, a slice is the run of samples
    between them. *)
Lemma py_slice_nonneg l start stop :
  0 <= start -> 0 <= stop ->
  py_slice l start stop =
    samples_between l (Z.to_nat start) (Z.to_nat stop).
Proof.
  intros Hs He. unfold py_slice, samples_between.
  rewrite !adjust_index_nonneg by done.
  destruct (Z.le_gt_cases (Z.of_nat (length l)) start) as [Hbig|Hsmall].
  - rewrite !drop_ge by lia. by rewrite !take_nil.
  - rewrite (Z.min_l start) by lia.
    destruct (Z.le_gt_cases stop (Z.of_nat (length l))).
    + rewrite Z.min_l by lia. f_equal. lia.
    + rewrite Z.min_r by lia.
      rewrite !take_ge; [done | |]; rewrite length_drop; lia.
Qed.

Lemma py_slice_length l start stop :
  (length (py_slice l start stop) <= length l)%nat.
Proof. unfold py_slice. rewrite length_take, length_drop. lia. Qed.

(** A negative start within the sequence selects from position
    [len + start], not from position 0. *)
Lemma py_slice_negative_start l start stop :
  - Z.of_nat (length l) <= start < 0 -> 0 <= stop ->
  py_slice l start stop =
    samples_between l (Z.to_nat (Z.of_nat (length l) + start))
      (Z.to_nat stop).
Proof.
  intros Hs He. rewrite <- py_slice_nonneg by lia.
  unfold py_slice. rewrite (adjust_index_wraps _ start) by done.
  rewrite (adjust_index_nonneg _ (_ + start)) by lia.
  by rewrite Z.min_l by lia.
Qed.
End SliceFacts.

(** ** The table *)

Section FrameFacts.
Context {A : Type}.
Implicit Types rows : list (list A).
Local Open Scope nat_scope.

Lemma max_len_ge rows r : r ∈ rows -> length r <= max_len rows.
Proof.
  induction 1 as [r rows|r r' rows _ IH]; simpl; lia.
Qed.

Lemma max_len_attained rows :
  rows ≠ [] -> exists r, r ∈ rows /\ length r = max_len rows.
Proof.
  induction rows as [|r rows IH]; [done|]. intros _.
  destruct rows as [|r' rows'].
  - exists r. split; [left|]. simpl. lia.
  - destruct IH as (r0 & Hin & Hlen); [done|].
    destruct (Nat.max_spec (length r) (max_len (r' :: rows')))
      as [[? Hm]|[? Hm]].
    + exists r0. split; [by right|]. simpl in *. lia.
    + exists r. split; [left|]. simpl in *. lia.
Qed.

Lemma pad_row_length w (r : list A) :
  length r <= w -> length (pad_row w r) = w.
Proof.
  intros. unfold pad_row.
  rewrite length_app, length_fmap, length_replicate. lia.
Qed.

Lemma pad_row_lookup w (r : list A) j :
  j < w -> length r <= w ->
  pad_row w r !! j = Some (r !! j).
Proof.
  intros Hj Hr. unfold pad_row.
  destruct (decide (j < length r)) as [Hlt|Hge].
  - rewrite lookup_app_l by (by rewrite length_fmap).
    rewrite list_lookup_fmap.
    destruct (lookup_lt_is_Some_2 r j Hlt) as [x ->]. done.
  - rewrite lookup_app_r by (rewrite length_fmap; lia).
    rewrite (lookup_ge_None_2 r j) by lia.
    apply lookup_replicate_2. rewrite length_fmap. lia.
Qed.

Lemma strip_markers_replicate_None n :
  strip_markers (replicate n (@None A)) = [].
Proof. induction n; simpl; auto. Qed.

Lemma strip_markers_Some (r : list A) : strip_markers (Some <$> r) = r.
Proof. induction r; simpl; f_equal; auto. Qed.

Lemma pad_row_present w (r : list A) : strip_markers (pad_row w r) = r.
Proof.
  unfold pad_row, strip_markers. rewrite omap_app.
  fold (strip_markers (Some <$> r)).
  fold (strip_markers (replicate (w - length r) (@None A))).
  by rewrite strip_markers_replicate_None, strip_markers_Some, app_nil_r.
Qed.

Lemma present_pd_DataFrame rows k :
  present (pd_DataFrame rows) k = rows !! k.
Proof.
  unfold present, pd_DataFrame. simpl.
  rewrite list_lookup_fmap. destruct (rows !! k); simpl; [|done].
  by rewrite pad_row_present.
Qed.
End FrameFacts.

(** ** Reference resolution and the two loops *)

Section PehFacts.
Context {A : Type}.
Implicit Types (data : cont_var A) (min_max : Q * Q) (ts refs : list Q).
Local Open Scope nat_scope.

Lemma item0_where_eq_from k ts r :
  item0 (where_eq_from k ts r) =
    match list_find (fun t => (t == r)%Q) ts with
    | Some (i, _) => Ok (k + i)
    | None => Raise IndexError
    end.
Proof.
  revert k. induction ts as [|t ts IH]; intros k; [done|].
  cbn [where_eq_from list_find].
  destruct (Qeq_bool t r) eqn:Ht.
  - apply Qeq_bool_iff in Ht. rewrite decide_True by done.
    simpl. f_equal. lia.
  - rewrite decide_False; last first.
    { intros Heq. apply Qeq_bool_iff in Heq. congruence. }
    rewrite IH. destruct (list_find _ ts) as [[i x]|]; simpl; [|done].
    f_equal. lia.
Qed.

Lemma item0_np_where_eq ts r :
  item0 (np_where_eq ts r) =
    match first_exact_match ts r with
    | Some i => Ok i
    | None => Raise IndexError
    end.
Proof.
  unfold np_where_eq, first_exact_match. rewrite item0_where_eq_from.
  by destruct (list_find _ ts) as [[i x]|].
Qed.

Lemma first_exact_match_Some ts r i :
  first_exact_match ts r = Some i <-> first_match_at ts r i.
Proof.
  unfold first_exact_match, first_match_at. split.
  - destruct (list_find _ ts) as [[i' t]|] eqn:Hf; simpl; [|done].
    intros [= ->]. apply list_find_Some in Hf as (Hi & Ht & Hlt).
    split; [by exists t|]. intros j t' Hj Hji. by apply (Hlt j t').
  - intros [(t & Hi & Ht) Hlt].
    assert (list_find (fun t => (t == r)%Q) ts = Some (i, t)) as ->; [|done].
    apply list_find_Some. split_and!; [done..|].
    intros j t' Hj Hji. by apply (Hlt j t').
Qed.


Lemma peh_by_index_eq data min_max refs trials :
  peh_by_index data min_max refs trials =
    Ok (trials ++ ((fun r => c_trial data r min_max) <$> refs)).
Proof.
  revert trials. induction refs as [|r refs IH]; intros trials; simpl.
  - by rewrite app_nil_r.
  - rewrite IH. by rewrite <- app_assoc.
Qed.

Lemma peh_by_timestamp_eq data min_max refs trials :
  peh_by_timestamp data min_max refs trials =
    match mapM (first_exact_match (timestamps data)) refs with
    | Some idxs =>
        Ok (trials ++
            ((fun i => c_trial data (of_index i) min_max) <$> idxs))
    | None => Raise IndexError
    end.
Proof.
  revert trials. induction refs as [|r refs IH]; intros trials.
  - simpl. by rewrite app_nil_r.
  - cbn [peh_by_timestamp mapM]. rewrite item0_np_where_eq.
    destruct (first_exact_match (timestamps data) r) as [i|]; simpl; [|done].
    rewrite IH.
    destruct (mapM _ refs) as [idxs|]; simpl; [|done].
    by rewrite <- app_assoc.
Qed.

Lemma mapM_resolve_by_index data refs :
  mapM (resolve data true) refs = Some refs.
Proof. apply mapM_Some, Forall2_same_length_lookup. split; [done|].
  intros i x y Hx Hy. simpl. congruence. Qed.

Lemma mapM_resolve_by_timestamp data refs :
  mapM (resolve data false) refs =
    fmap of_index <$> mapM (first_exact_match (timestamps data)) refs.
Proof.
  induction refs as [|r refs IH]; [done|].
  cbn [mapM]. rewrite IH. unfold resolve at 1.
  destruct (first_exact_match _ r); simpl; [|done].
  destruct (mapM (first_exact_match (timestamps data)) refs); reflexivity.
Qed.

(** The whole call, in one equation. *)
Lemma cont_var_peh_eq data refs min_max nm idx :
  cont_var_peh data refs min_max nm idx =
    match mapM (resolve data idx) refs with
    | Some ps => Ok (pd_DataFrame ((fun p => c_trial data p min_max) <$> ps))
    | None => Raise IndexError
    end.
Proof.
  unfold cont_var_peh. destruct idx; simpl.
  - by rewrite peh_by_index_eq, mapM_resolve_by_index.
  - rewrite peh_by_timestamp_eq, mapM_resolve_by_timestamp.
    destruct (mapM _ refs) as [idxs|]; simpl; [|done].
    by rewrite <- list_fmap_compose.
Qed.
End PehFacts.

(** ** Claims about [cont_var_peh] *)

Section PehClaims.
Context {A : Type}.
Implicit Types (data : cont_var A) (min_max : Q * Q) (refs : list Q).
Local Open Scope nat_scope.


(** C5. A call that returns gives a table with one row per reference
    point, in the order of the reference points; the number of columns
    is the largest length among the extracted windows (0 when there is
    none); row [k] holds the samples of window [k] and, beyond its
    length, the missing-value marker. *)
Theorem trial_matrix_shape data refs min_max nm idx df :
  cont_var_peh data refs min_max nm idx = Ok df ->
  exists ps,
    Forall2 (fun r p => resolve data idx r = Some p) refs ps /\
    let rows := (fun p => c_trial data p min_max) <$> ps in
    df_shape df = (length refs, max_len rows) /\
    (forall row, row ∈ rows -> length row <= df_columns df) /\
    (rows <> [] -> exists row, row ∈ rows /\ length row = df_columns df) /\
    (rows = [] -> df_columns df = 0) /\
    forall k row, rows !! k = Some row ->
      exists cells,
        df_values df !! k = Some cells /\
        length cells = df_columns df /\
        forall j, j < df_columns df -> cells !! j = Some (row !! j).
Proof.
  rewrite cont_var_peh_eq.
  destruct (mapM _ refs) as [ps|] eqn:Hps; [|done].
  intros [= <-]. exists ps. apply mapM_Some in Hps.
  split; [done|]. intros rows.
  assert (length rows = length refs) as Hlen.
  { unfold rows. rewrite length_fmap. symmetry. by eapply Forall2_length. }
  unfold df_shape. cbn [pd_DataFrame df_values df_columns]. fold rows.
  clearbody rows.
  split_and!.
  - by rewrite length_fmap, Hlen.
  - intros row Hrow. by apply max_len_ge.
  - apply max_len_attained.
  - by intros ->.
  - intros k row Hk. exists (pad_row (max_len rows) row).
    assert (length row <= max_len rows).
    { apply max_len_ge. by eapply list_elem_of_lookup_2. }
    split_and!.
    + by rewrite list_lookup_fmap, Hk.
    + by apply pad_row_length.
    + intros j Hj. by apply pad_row_lookup.
Qed.
End PehClaims.

Lemma trial_matrix_shape_witness :
  cont_var_peh (ramp 100 10) [2 # 10; 5 # 1; 98 # 10]%Q (1 # 1, 1 # 1)%Q
    None false
  = Ok (pd_DataFrame [[]; Z.of_nat <$> seq 40 20; Z.of_nat <$> seq 88 12]) /\
  exists ps,
    Forall2 (fun r p => resolve (ramp 100 10) false r = Some p)
      [2 # 10; 5 # 1; 98 # 10]%Q ps /\
    df_shape (pd_DataFrame
                [[]; Z.of_nat <$> seq 40 20; Z.of_nat <$> seq 88 12])
    = (3%nat,
       max_len ((fun p => c_trial (ramp 100 10) p (1 # 1, 1 # 1)%Q) <$> ps)).
Proof.
  assert (cont_var_peh (ramp 100 10) [2 # 10; 5 # 1; 98 # 10]%Q
            (1 # 1, 1 # 1)%Q None false
          = Ok (pd_DataFrame
                  [[]; Z.of_nat <$> seq 40 20; Z.of_nat <$> seq 88 12]))
    as Hrun by (vm_compute; reflexivity).
  split; [exact Hrun|].
  destruct (trial_matrix_shape _ _ _ _ _ _ Hrun) as (ps & Hps & Hshape & _).
  exists ps. split; [exact Hps | exact Hshape].
Defined.

(** The table of that call has 3 rows and 20 columns. *)
Example trial_matrix_three_events :
  df_shape (pd_DataFrame
              [[]; Z.of_nat <$> seq 40 20; Z.of_nat <$> seq 88 12])
  = (3%nat, 20%nat).
Proof. reflexivity. Qed.

(** C2. On a signal of 100 samples at sampling rate 10 with timestamps
    0.0, 0.1, ..., 9.9, the reference point 5.0 with window (1.0, 1.0) in
    timestamp mode gives one row of 20 samples, the samples 40 to 59 of the
    signal: [signal[40:60]]. *)
Theorem window_around_5_is_40_60 {A} (sig : list A) nm an nm' :
  length sig = 100%nat ->
  cont_var_peh (ContVar sig (10 # 1) (tenths 100) nm an) [5 # 1]%Q
    (1 # 1, 1 # 1)%Q nm' false
  = Ok (Frame 20 [Some <$> py_slice sig 40 60]) /\
  length (py_slice sig 40 60) = 20%nat /\
  forall j, (j < 20)%nat -> py_slice sig 40 60 !! j = sig !! (40 + j)%nat.
Proof.
  intros Hlen.
  assert (py_slice sig 40 60 = samples_between sig 40 60) as Hslice.
  { by rewrite py_slice_nonneg. }
  assert (length (py_slice sig 40 60) = 20%nat) as Hrow.
  { rewrite Hslice, samples_between_length, Hlen. reflexivity. }
  split_and!; [|done|].
  - unfold cont_var_peh. cbn [negb peh_by_timestamp timestamps].
    replace (item0 (np_where_eq (tenths 100) (5 # 1)%Q)) with (Ok 50%nat)
      by (vm_compute; reflexivity).
    cbn [mbind result_bind peh_by_timestamp app mret result_ret].
    unfold c_trial, window_start, window_end. cbn [signal sr fst snd].
    replace (py_int _) with 40%Z by (vm_compute; reflexivity).
    replace (py_int _) with 60%Z by (vm_compute; reflexivity).
    unfold pd_DataFrame, pad_row. cbn [max_len foldr fmap list_fmap].
    rewrite Hrow. cbn [Nat.max Nat.sub replicate]. by rewrite app_nil_r.
  - intros j Hj. rewrite Hslice, samples_between_lookup.
    by rewrite decide_True by lia.
Qed.

Lemma window_around_5_is_40_60_witness :
  length (Z.of_nat <$> seq 0 100) = 100%nat /\
  cont_var_peh (ContVar (Z.of_nat <$> seq 0 100) (10 # 1) (tenths 100)
                        None None) [5 # 1]%Q (1 # 1, 1 # 1)%Q None false
  = Ok (Frame 20 [Some <$> py_slice (Z.of_nat <$> seq 0 100) 40 60]).
Proof.
  assert (length (Z.of_nat <$> seq 0 100) = 100%nat) as Hlen by reflexivity.
  split; [exact Hlen|].
  exact (proj1 (window_around_5_is_40_60 _ None None None Hlen)).
Defined.

(** C3 (the code departs from the claim). A reference event near the start
    of the signal, where [int(start)] is negative: the slice counts the
    negative bound from the end of the signal. For 100 samples at rate 10,
    the event at 0.2 with window (1.0, 1.0) gives [start = -8], [end = 12],
    and the row is [signal[92:12]], which is empty, not the left-truncated
    window [signal[0:12]]. For 10 samples the same call gives
    [signal[2:10]]: the samples 0 and 1, which do belong to the window, are
    lost. *)
Theorem negative_start_wraps_around :
  first_exact_match (timestamps (ramp 100 10)) (2 # 10)%Q = Some 2%nat /\
  py_int (window_start (ramp 100 10) (of_index 2) (1 # 1, 1 # 1)%Q) = (-8)%Z /\
  py_int (window_end (ramp 100 10) (of_index 2) (1 # 1, 1 # 1)%Q) = 12%Z /\
  cont_var_peh (ramp 100 10) [2 # 10]%Q (1 # 1, 1 # 1)%Q None false
  = Ok (Frame 0 [[]]) /\
  samples_between (signal (ramp 100 10)) 0 12
  = [0; 1; 2; 3; 4; 5; 6; 7; 8; 9; 10; 11]%Z /\
  cont_var_peh (ramp 10 10) [2 # 10]%Q (1 # 1, 1 # 1)%Q None false
  = Ok (Frame 8 [Some <$> [2; 3; 4; 5; 6; 7; 8; 9]%Z]) /\
  samples_between (signal (ramp 10 10)) 0 12
  = [0; 1; 2; 3; 4; 5; 6; 7; 8; 9]%Z.
Proof. split_and!; vm_compute; reflexivity. Qed.

(** ** Floating-point facts *)

Section FloatFacts.
Local Open Scope float_scope.

Lemma eqb_zero_inv s : (s =? 0) = true -> exists b, Prim2SF s = S754_zero b.
Proof.
  rewrite FloatAxioms.eqb_spec. change (Prim2SF 0) with (S754_zero false).
  destruct (Prim2SF s) as [b|b| |b m e]; [by exists b|..].
  - by destruct b.
  - done.
  - by destruct b.
Qed.

Lemma is_nan_of_spec z : Prim2SF z = S754_nan -> is_nan z = true.
Proof. intros Hz. unfold is_nan. by rewrite FloatAxioms.eqb_spec, Hz. Qed.

Lemma is_infinity_of_spec z b :
  Prim2SF z = S754_infinity b -> is_infinity z = true.
Proof.
  intros Hz. unfold is_infinity.
  by rewrite FloatAxioms.eqb_spec, FloatAxioms.abs_spec, Hz.
Qed.

(** A quotient by zero is a NaN or an infinity, whatever the dividend. *)
Lemma div_by_zero_not_finite a s :
  (s =? 0) = true -> is_finite (a / s) = false.
Proof.
  intros [b Hs]%eqb_zero_inv. unfold is_finite.
  pose proof (FloatAxioms.div_spec a s) as Hdiv. rewrite Hs in Hdiv.
  unfold SF64div in Hdiv.
  destruct (Prim2SF a) as [b'|b'| |b' m e]; cbn [SFdiv] in Hdiv.
  - by rewrite (is_nan_of_spec _ Hdiv).
  - rewrite (is_infinity_of_spec _ _ Hdiv). by rewrite orb_true_r.
  - by rewrite (is_nan_of_spec _ Hdiv).
  - rewrite (is_infinity_of_spec _ _ Hdiv). by rewrite orb_true_r.
Qed.
End FloatFacts.

(** ** Casting a float to an integer *)

Section Float64Facts.
Local Open Scope float_scope.

Lemma abs_abs x : abs (abs x) = abs x.
Proof.
  apply Prim2SF_inj. rewrite !FloatAxioms.abs_spec.
  by destruct (Prim2SF x).
Qed.

Lemma abs_opp x : abs (- x) = abs x.
Proof.
  apply Prim2SF_inj.
  rewrite !FloatAxioms.abs_spec, FloatAxioms.opp_spec.
  by destruct (Prim2SF x).
Qed.

Lemma toward_zero_Z n : toward_zero (inject_Z n) = n.
Proof.
  unfold toward_zero. rewrite Qfloor_Z, Qceiling_Z. by destruct (Qle_bool _ _).
Qed.

(** [int()] of a float is the truncation toward zero of the number the
    float stands for; it raises exactly on the floats that stand for no
    number. *)
Lemma f64_int_value x :
  f64_int x =
    match f64_value x with
    | Some q => Ok (toward_zero q)
    | None => if is_nan x then Raise ValueError else Raise OverflowError
    end.
Proof.
  unfold f64_int, f64_value.
  destruct (Prim2SF x) as [b|b| |s m e] eqn:Hx.
  - done.
  - assert (is_nan x = false) as ->; [|done].
    unfold is_nan. rewrite FloatAxioms.eqb_spec, Hx. by destruct b.
  - by rewrite (is_nan_of_spec _ Hx).
  - f_equal. change (Z.neg m) with (- Z.pos m)%Z. destruct e as [|p|k].
    + rewrite toward_zero_Z, Z.shiftl_0_r. destruct s; lia.
    + rewrite toward_zero_Z, Z.shiftl_mul_pow2 by lia. destruct s; lia.
    + rewrite Z.shiftr_div_pow2 by lia. unfold toward_zero.
      destruct s.
      * change (- Z.pos m)%Z with (Z.neg m).
        assert (Qle_bool 0 (Z.neg m # 2 ^ k) = false) as ->.
        { apply not_true_is_false. intros Hle%Qle_bool_iff.
          unfold Qle in Hle. simpl in Hle. lia. }
        unfold Qceiling, Qfloor. cbn [Qopp Qnum Qden Z.opp].
        by rewrite Pos2Z.inj_pow.
      * assert (Qle_bool 0 (Z.pos m # 2 ^ k) = true) as ->.
        { apply Qle_bool_iff. unfold Qle. simpl. lia. }
        unfold Qfloor. by rewrite Pos2Z.inj_pow.
Qed.

Lemma f64_int_Ok x z :
  f64_int x = Ok z <-> exists q, f64_value x = Some q /\ z = toward_zero q.
Proof.
  rewrite f64_int_value. destruct (f64_value x) as [q|].
  - split; [intros [= <-]; by exists q|]. by intros (q' & [= <-] & ->).
  - split; [by destruct (is_nan x)|]. by intros (q' & [=] & _).
Qed.

Lemma f64_value_finite x :
  is_finite x = true <-> exists q, f64_value x = Some q.
Proof.
  unfold is_finite, is_nan, is_infinity, f64_value.
  rewrite !FloatAxioms.eqb_spec, FloatAxioms.abs_spec.
  change (Prim2SF infinity) with (S754_infinity false).
  destruct (Prim2SF x) as [b|b| |s m e]; cbn.
  - split; [eauto|done].
  - split; [by destruct b|]. by intros [q [=]].
  - split; [done|]. by intros [q [=]].
  - split; [eauto|]. intros _. unfold SFeqb, SFcompare.
    rewrite Z.compare_refl, Pos.compare_cont_refl. by destruct s.
Qed.

(** [int()] returns on the finite floats, raises [ValueError] on a NaN and
    [OverflowError] on an infinity. *)
Lemma f64_int_cases x :
  match f64_int x with
  | Ok _ => is_finite x = true
  | Raise ValueError => is_nan x = true
  | Raise OverflowError => is_infinity x = true
  | Raise _ => False
  end.
Proof.
  unfold f64_int. destruct (Prim2SF x) as [b|b| |s m e] eqn:Hx.
  - apply f64_value_finite. unfold f64_value. rewrite Hx. eauto.
  - by apply is_infinity_of_spec in Hx.
  - by apply is_nan_of_spec.
  - apply f64_value_finite. unfold f64_value. rewrite Hx. eauto.
Qed.

Lemma f64_int_finite x : is_finite x = true -> exists z, f64_int x = Ok z.
Proof.
  intros [q Hq]%f64_value_finite. rewrite f64_int_value, Hq. eauto.
Qed.

Lemma f64_int_not_IndexError x : f64_int x <> Raise IndexError.
Proof.
  pose proof (f64_int_cases x) as Hc. intros Heq. by rewrite Heq in Hc.
Qed.
End Float64Facts.

(** ** The extraction in binary64 *)

Section ResultFacts.
Context {B C : Type}.
Implicit Types (f : B -> result C).

Lemma mapM_result_Ok f l k :
  mapM f l = Ok k <-> Forall2 (fun x y => f x = Ok y) l k.
Proof.
  revert k. induction l as [|x l IH]; intros k; cbn [mapM].
  - split; [intros [= <-]; constructor|]. by intros ->%Forall2_nil_inv_l.
  - destruct (f x) as [y|e] eqn:Hx; cbn [mbind result_bind].
    + destruct (mapM f l) as [k'|e] eqn:Hl;
        cbn [mbind result_bind mret result_ret].
      * split.
        -- intros [= <-]. constructor; [done|]. by apply IH.
        -- intros (y' & k'' & Hy & Hk & ->)%Forall2_cons_inv_l.
           apply IH in Hk. injection Hk as ->. rewrite Hx in Hy.
           by injection Hy as ->.
      * split; [done|].
        intros (y' & k'' & Hy & Hk & ->)%Forall2_cons_inv_l.
        apply IH in Hk. congruence.
    + split; [done|].
      intros (y' & k'' & Hy & Hk & ->)%Forall2_cons_inv_l. congruence.
Qed.

Lemma mapM_result_ext f g l :
  (forall x, x ∈ l -> f x = g x) -> mapM f l = mapM g l.
Proof.
  induction l as [|x l IH]; intros Hext; [done|].
  cbn [mapM]. rewrite (Hext x) by left. rewrite IH; [done|].
  intros y Hy. apply Hext. by right.
Qed.

(** The exception of a failing [mapM] is the exception of one of the
    elements. *)
Lemma mapM_result_Raise f l e :
  mapM f l = Raise e -> exists x, x ∈ l /\ f x = Raise e.
Proof.
  induction l as [|x l IH]; cbn [mapM]; [done|].
  destruct (f x) as [y|e'] eqn:Hx; cbn [mbind result_bind].
  - destruct (mapM f l) as [k'|e'] eqn:Hl;
      cbn [mbind result_bind mret result_ret]; [done|].
    intros [= ->]. destruct IH as (x' & Hin & Hx'); [done|].
    exists x'. split; [by right|done].
  - intros [= ->]. exists x. split; [left|done].
Qed.
End ResultFacts.

Section Lookup64.
Local Open Scope nat_scope.

(** [np.where(ts == event)[0][0]] on floats: the first position whose
    timestamp compares equal to the event, [IndexError] when there is
    none. *)
Lemma item0_f64_where_eq_from k ts r i :
  item0 (f64_where_eq_from k ts r) = Ok i <->
  exists j, i = k + j /\
    (exists t, ts !! j = Some t /\ (t =? r)%float = true) /\
    forall j' t', ts !! j' = Some t' -> j' < j -> (t' =? r)%float = false.
Proof.
  revert k. induction ts as [|t ts IH]; intros k; cbn [f64_where_eq_from].
  - split; [done|]. by intros (j & _ & (t & [=] & _) & _).
  - destruct (t =? r)%float eqn:Ht; cbn [item0].
    + split.
      * intros [= <-]. exists 0. split; [lia|]. split; [by exists t|].
        intros j' t' _ Hlt. lia.
      * intros (j & -> & (t0 & Hj & Ht0) & Hfirst). f_equal.
        destruct j as [|j]; [lia|].
        specialize (Hfirst 0 t eq_refl ltac:(lia)). congruence.
    + rewrite IH. split.
      * intros (j & -> & (t0 & Hj & Ht0) & Hfirst). exists (S j).
        split; [lia|]. split; [by exists t0|].
        intros [|j'] t' Hj' Hlt; simpl in Hj'; [congruence|].
        apply (Hfirst j' t' Hj'). lia.
      * intros (j & -> & (t0 & Hj & Ht0) & Hfirst).
        destruct j as [|j]; simpl in Hj; [congruence|].
        exists j. split; [lia|]. split; [by exists t0|].
        intros j' t' Hj' Hlt. apply (Hfirst (S j') t' Hj'). lia.
Qed.

Lemma item0_f64_where_eq_from_Raise k ts r e :
  item0 (f64_where_eq_from k ts r) = Raise e <->
  e = IndexError /\ forall t, t ∈ ts -> (t =? r)%float = false.
Proof.
  revert k. induction ts as [|t ts IH]; intros k; cbn [f64_where_eq_from].
  - cbn [item0]. split; [intros [= <-]; split; [done|]|by intros [-> _]].
    intros t Ht. by apply elem_of_nil in Ht.
  - destruct (t =? r)%float eqn:Ht; cbn [item0].
    + split; [done|]. intros [_ Hall]. rewrite Hall in Ht by left. done.
    + rewrite IH. split; intros [-> Hall]; (split; [done|]).
      * intros t' [->|Hin]%elem_of_cons; [done|by apply Hall].
      * intros t' Hin. apply Hall. by right.
Qed.

(** In timestamp mode a reference point resolves to its first exact
    match, as a float. *)
Lemma resolve64_first_match {A} (data : F64.cont_var A) r pos :
  F64.resolve data false r = Ok pos <->
  exists i, pos = float_of_nat i /\
    (exists t, F64.timestamps data !! i = Some t /\ (t =? r)%float = true) /\
    forall j t', F64.timestamps data !! j = Some t' -> j < i ->
                 (t' =? r)%float = false.
Proof.
  unfold F64.resolve, F64.np_where_eq.
  destruct (item0 _) as [i|e] eqn:Hi; cbn [mbind result_bind mret result_ret].
  - apply item0_f64_where_eq_from in Hi as (j & -> & Hj & Hfirst).
    split.
    + intros [= <-]. by exists j.
    + intros (i & -> & (t & Hi & Ht) & Hfirst'). do 2 f_equal.
      destruct Hj as (t0 & Hj & Ht0).
      destruct (lt_eq_lt_dec i j) as [[Hlt| ->]|Hlt]; [|done|].
      * specialize (Hfirst _ _ Hi Hlt). congruence.
      * specialize (Hfirst' _ _ Hj Hlt). congruence.
  - apply item0_f64_where_eq_from_Raise in Hi as [-> Hall].
    split; [done|]. intros (i & _ & (t & Hi & Ht) & _).
    rewrite Hall in Ht; [done|]. by eapply list_elem_of_lookup_2.
Qed.

Lemma resolve64_no_match {A} (data : F64.cont_var A) r e :
  F64.resolve data false r = Raise e <->
  e = IndexError /\
  forall t, t ∈ F64.timestamps data -> (t =? r)%float = false.
Proof.
  unfold F64.resolve, F64.np_where_eq.
  destruct (item0 _) as [i|e'] eqn:Hi; cbn [mbind result_bind mret result_ret].
  - split; [done|]. intros [-> Hall].
    apply item0_f64_where_eq_from in Hi as (j & _ & (t & Hj & Ht) & _).
    rewrite Hall in Ht; [done|]. by eapply list_elem_of_lookup_2.
  - apply item0_f64_where_eq_from_Raise in Hi as [-> Hall].
    split; [by intros [= <-]|]. by intros [-> _].
Qed.
End Lookup64.

Section Peh64Facts.
Context {A : Type}.
Implicit Types (data : F64.cont_var A) (min_max : float * float).
Implicit Types (refs : list float).
Local Open Scope nat_scope.

Lemma peh_by_index_rows data min_max refs trials :
  F64.peh_by_index data min_max refs trials =
    (rows ← mapM (F64.row_of data true min_max) refs; Ok (trials ++ rows)).
Proof.
  revert trials. induction refs as [|r refs IH]; intros trials.
  - simpl. by rewrite app_nil_r.
  - cbn [F64.peh_by_index mapM].
    change (F64.c_trial data r min_max)
      with (F64.row_of data true min_max r).
    destruct (F64.row_of data true min_max r) as [row|e]; [|done].
    cbn [mbind result_bind]. rewrite IH.
    destruct (mapM _ refs) as [rows|e]; [|done].
    cbn [mbind result_bind mret result_ret]. by rewrite <- app_assoc.
Qed.

Lemma peh_by_timestamp_rows data min_max refs trials :
  F64.peh_by_timestamp data min_max refs trials =
    (rows ← mapM (F64.row_of data false min_max) refs; Ok (trials ++ rows)).
Proof.
  revert trials. induction refs as [|r refs IH]; intros trials.
  - simpl. by rewrite app_nil_r.
  - cbn [F64.peh_by_timestamp mapM].
    assert (F64.row_of data false min_max r =
              (idx_evt ← item0 (F64.np_where_eq (F64.timestamps data) r);
               F64.c_trial data (float_of_nat idx_evt) min_max)) as ->.
    { unfold F64.row_of, F64.resolve. by destruct (item0 _). }
    destruct (item0 _) as [i|e]; [|done].
    cbn [mbind result_bind].
    destruct (F64.c_trial data _ min_max) as [row|e]; [|done].
    cbn [mbind result_bind]. rewrite IH.
    destruct (mapM _ refs) as [rows|e]; [|done].
    cbn [mbind result_bind mret result_ret]. by rewrite <- app_assoc.
Qed.

(** The whole call, in one equation. *)
Lemma cont_var_peh_rows data refs min_max nm idx :
  F64.cont_var_peh data refs min_max nm idx =
    (rows ← mapM (F64.row_of data idx min_max) refs; Ok (pd_DataFrame rows)).
Proof.
  unfold F64.cont_var_peh. destruct idx; cbn [negb].
  - rewrite peh_by_index_rows. by destruct (mapM _ refs).
  - rewrite peh_by_timestamp_rows. by destruct (mapM _ refs).
Qed.

Lemma c_trial_Ok data pos min_max row :
  F64.c_trial data pos min_max = Ok row <->
  exists lo hi,
    f64_int (F64.window_start data pos min_max) = Ok lo /\
    f64_int (F64.window_end data pos min_max) = Ok hi /\
    row = py_slice (F64.signal data) lo hi.
Proof.
  unfold F64.c_trial.
  destruct (f64_int (F64.window_start _ _ _)) as [lo|e];
    cbn [mbind result_bind].
  - destruct (f64_int (F64.window_end _ _ _)) as [hi|e];
      cbn [mbind result_bind mret result_ret].
    + split; [intros [= <-]; eauto|]. by intros (? & ? & [= <-] & [= <-] & ->).
    + split; [done|]. by intros (? & ? & _ & [=] & _).
  - split; [done|]. by intros (? & ? & [=] & _).
Qed.

(** A call that returns holds, for reference [k], the padded row of its
    window. *)
Lemma row_of_reference64 data refs min_max nm idx df k r :
  F64.cont_var_peh data refs min_max nm idx = Ok df ->
  refs !! k = Some r ->
  exists row,
    F64.row_of data idx min_max r = Ok row /\
    df_values df !! k = Some (pad_row (df_columns df) row) /\
    present df k = Some row.
Proof.
  rewrite cont_var_peh_rows.
  destruct (mapM _ refs) as [rows|e] eqn:Hrows; [|done].
  cbn [mbind result_bind]. intros [= <-] Hk.
  apply mapM_result_Ok in Hrows.
  destruct (Forall2_lookup_l _ _ _ _ _ Hrows Hk) as (row & Hrow & Hr).
  exists row. split; [done|]. rewrite present_pd_DataFrame, Hrow.
  split; [|done]. unfold pd_DataFrame. cbn [df_values df_columns].
  by rewrite list_lookup_fmap, Hrow.
Qed.

Lemma rows_of_references64 data refs min_max nm idx df :
  F64.cont_var_peh data refs min_max nm idx = Ok df ->
  length (df_values df) = length refs.
Proof.
  rewrite cont_var_peh_rows.
  destruct (mapM _ refs) as [rows|e] eqn:Hrows; [|done].
  cbn [mbind result_bind]. intros [= <-].
  apply mapM_result_Ok, Forall2_length in Hrows.
  unfold pd_DataFrame. cbn [df_values]. by rewrite length_fmap.
Qed.

Lemma c_trial_abs64 data pos min_max :
  F64.c_trial data pos (abs (fst min_max), abs (snd min_max)) =
  F64.c_trial data pos min_max.
Proof.
  unfold F64.c_trial, F64.window_start, F64.window_end. cbn [fst snd].
  by rewrite !abs_abs.
Qed.

Lemma c_trial_opp64 data pos min_max :
  F64.c_trial data pos (- fst min_max, - snd min_max)%float =
  F64.c_trial data pos min_max.
Proof.
  unfold F64.c_trial, F64.window_start, F64.window_end. cbn [fst snd].
  by rewrite !abs_opp.
Qed.

Lemma cont_var_peh_abs64 data refs min_max nm idx :
  F64.cont_var_peh data refs (abs (fst min_max), abs (snd min_max)) nm idx =
  F64.cont_var_peh data refs min_max nm idx.
Proof.
  rewrite !cont_var_peh_rows. f_equal. apply mapM_result_ext.
  intros r _. unfold F64.row_of. destruct (F64.resolve data idx r); [|done].
  apply c_trial_abs64.
Qed.

Lemma cont_var_peh_opp64 data refs min_max nm idx :
  F64.cont_var_peh data refs (- fst min_max, - snd min_max)%float nm idx =
  F64.cont_var_peh data refs min_max nm idx.
Proof.
  rewrite !cont_var_peh_rows. f_equal. apply mapM_result_ext.
  intros r _. unfold F64.row_of. destruct (F64.resolve data idx r); [|done].
  apply c_trial_opp64.
Qed.
End Peh64Facts.

(** ** Claims about the window bounds and about index mode *)

Section Peh64Claims.
Context {A : Type}.
Implicit Types (data : F64.cont_var A) (min_max : float * float).
Implicit Types (refs : list float).

(** C1, as amended. For a reference point resolved to the position [pos]
    (the index of its first exact match in timestamp mode, the reference
    value itself in index mode), the bounds of the slice are
    [int(pos - |before| * sr)] and [int(pos + |after| * sr)]: the product,
    the difference and the sum are computed in binary64, and the cast
    truncates the difference and the sum toward zero. When neither bound
    is negative, the row holds the samples from the first bound up to but
    excluding the second, cut at the end of the signal. The window bounds
    enter through their absolute values only. *)
Theorem window_bounds_truncate_difference
    data refs min_max nm idx df k r pos :
  F64.cont_var_peh data refs min_max nm idx = Ok df ->
  refs !! k = Some r ->
  F64.resolve data idx r = Ok pos ->
  let start := (pos - abs (fst min_max) * F64.sr data)%float in
  let end_ := (pos + abs (snd min_max) * F64.sr data)%float in
  exists x y : Q,
    f64_value start = Some x /\
    f64_value end_ = Some y /\
    f64_int start = Ok (toward_zero x) /\
    f64_int end_ = Ok (toward_zero y) /\
    (0 <= toward_zero x -> 0 <= toward_zero y ->
     let row := samples_between (F64.signal data)
                  (Z.to_nat (toward_zero x)) (Z.to_nat (toward_zero y)) in
     df_values df !! k = Some (pad_row (df_columns df) row) /\
     present df k = Some row) /\
    F64.cont_var_peh data refs (abs (fst min_max), abs (snd min_max)) nm idx
    = Ok df /\
    F64.cont_var_peh data refs (- fst min_max, - snd min_max)%float nm idx
    = Ok df.
Proof.
  intros Hrun Hk Hres start end_.
  destruct (row_of_reference64 _ _ _ _ _ _ _ _ Hrun Hk)
    as (row & Hrow & Hcells & Hpresent).
  unfold F64.row_of in Hrow. rewrite Hres in Hrow.
  cbn [mbind result_bind] in Hrow.
  apply c_trial_Ok in Hrow as (lo & hi & Hlo & Hhi & ->).
  pose proof Hlo as Hlo'. pose proof Hhi as Hhi'.
  apply f64_int_Ok in Hlo' as (x & Hx & ->).
  apply f64_int_Ok in Hhi' as (y & Hy & ->).
  exists x, y. split_and!; [done..| | |].
  - intros Hx0 Hy0. cbn zeta.
    rewrite <- py_slice_nonneg by done. by split.
  - by rewrite cont_var_peh_abs64.
  - by rewrite cont_var_peh_opp64.
Qed.

Lemma index_mode_rows data refs min_max :
  Forall (fun r =>
            is_finite (F64.window_start data r min_max) = true /\
            is_finite (F64.window_end data r min_max) = true) refs ->
  exists rows, mapM (F64.row_of data true min_max) refs = Ok rows.
Proof.
  induction 1 as [|r refs' [Hs He] _ [rows IH]]; [by exists []|].
  cbn [mapM]. rewrite IH.
  destruct (f64_int_finite _ Hs) as [lo Hlo].
  destruct (f64_int_finite _ He) as [hi Hhi].
  exists (py_slice (F64.signal data) lo hi :: rows).
  unfold F64.row_of. cbn [F64.resolve mbind result_bind].
  unfold F64.c_trial. by rewrite Hlo, Hhi.
Qed.

(** C10. In index mode the reference values are not checked against the
    signal: the call never raises [IndexError]; whether it returns does
    not depend on the signal at all, only on the two bounds of every
    reference value being finite numbers ([int()] raises [ValueError] on a
    NaN and [OverflowError] on an infinity); and when it returns, row [k]
    is the slice [signal[int(start):int(end)]] of reference [k], whatever
    the bounds are: negative, or at or beyond the end of the signal. *)
Theorem index_mode_never_raises data refs min_max nm :
  let run := F64.cont_var_peh data refs min_max nm true in
  let start r := (r - abs (fst min_max) * F64.sr data)%float in
  let end_ r := (r + abs (snd min_max) * F64.sr data)%float in
  run <> Raise IndexError /\
  (forall e, run = Raise e ->
     exists r, r ∈ refs /\
       (e = ValueError /\ (is_nan (start r) = true \/ is_nan (end_ r) = true)
        \/
        e = OverflowError /\
        (is_infinity (start r) = true \/ is_infinity (end_ r) = true))) /\
  ((exists df, run = Ok df) <->
   Forall (fun r => is_finite (start r) = true /\ is_finite (end_ r) = true)
     refs) /\
  (forall df, run = Ok df ->
     length (df_values df) = length refs /\
     forall k r, refs !! k = Some r ->
       exists lo hi,
         f64_int (start r) = Ok lo /\
         f64_int (end_ r) = Ok hi /\
         df_values df !! k =
           Some (pad_row (df_columns df)
                   (py_slice (F64.signal data) lo hi)) /\
         present df k = Some (py_slice (F64.signal data) lo hi)).
Proof.
  intros run start end_.
  assert (forall e, run = Raise e ->
     exists r, r ∈ refs /\
       (e = ValueError /\ (is_nan (start r) = true \/ is_nan (end_ r) = true)
        \/
        e = OverflowError /\
        (is_infinity (start r) = true \/ is_infinity (end_ r) = true)))
    as Hraise.
  { intros e. unfold run. rewrite cont_var_peh_rows.
    destruct (mapM _ refs) as [rows|e'] eqn:Hrows; [done|].
    cbn [mbind result_bind]. intros [= ->].
    apply mapM_result_Raise in Hrows as (r & Hr & Hrow).
    exists r. split; [done|].
    unfold F64.row_of in Hrow. cbn [F64.resolve mbind result_bind] in Hrow.
    unfold F64.c_trial, F64.window_start, F64.window_end in Hrow.
    fold (start r) (end_ r) in Hrow.
    pose proof (f64_int_cases (start r)) as Hs.
    pose proof (f64_int_cases (end_ r)) as He.
    destruct (f64_int (start r)) as [lo|e1]; cbn [mbind result_bind] in Hrow.
    - destruct (f64_int (end_ r)) as [hi|e2]; [done|].
      cbn [mbind result_bind] in Hrow. injection Hrow as ->.
      destruct e; naive_solver.
    - injection Hrow as ->. destruct e; naive_solver. }
  split_and!.
  - intros Heq. destruct (Hraise _ Heq) as (r & _ & [[? _]|[? _]]); done.
  - done.
  - unfold run. rewrite cont_var_peh_rows. split.
    + intros [df Hdf].
      destruct (mapM _ refs) as [rows|e'] eqn:Hrows; [|done].
      apply mapM_result_Ok in Hrows. apply Forall_forall. intros r Hr.
      apply list_elem_of_lookup_1 in Hr as [k Hk].
      destruct (Forall2_lookup_l _ _ _ _ _ Hrows Hk) as (row & _ & Hrow).
      unfold F64.row_of in Hrow. cbn [F64.resolve mbind result_bind] in Hrow.
      apply c_trial_Ok in Hrow as (lo & hi & Hlo & Hhi & _).
      pose proof (f64_int_cases (start r)) as Hs.
      pose proof (f64_int_cases (end_ r)) as He.
      unfold F64.window_start in Hlo. unfold F64.window_end in Hhi.
      fold (start r) in Hlo. fold (end_ r) in Hhi.
      rewrite Hlo in Hs. rewrite Hhi in He. done.
    + intros Hfin.
      destruct (index_mode_rows data refs min_max Hfin) as [rows ->].
      by eexists.
  - intros df Hdf. unfold run in Hdf.
    split; [by eapply rows_of_references64|].
    intros k r Hk.
    destruct (row_of_reference64 _ _ _ _ _ _ _ _ Hdf Hk)
      as (row & Hrow & Hcells & Hpresent).
    unfold F64.row_of in Hrow. cbn [F64.resolve mbind result_bind] in Hrow.
    apply c_trial_Ok in Hrow as (lo & hi & Hlo & Hhi & ->).
    by exists lo, hi.
Qed.
End Peh64Claims.

(** C1, as stated, fails: the event at 0.5 of a 10-sample recording at
    rate 10 resolves to index 5; with window (0.25, 0.25) the product is
    2.5, the code takes [int(5 - 2.5) = 2] and returns the samples 2 to 6,
    where the claimed [start = 5 - floor(2.5) = 3] gives the samples 3 to
    6. All the numbers involved are exact in binary64. *)
Lemma floor_of_product_counterexample :
  F64.resolve (F64.ramp 10 10) false (1 / 2)%float = Ok 5%float /\
  Qred <$> f64_value (abs (1 / 4) * F64.sr (F64.ramp 10 10))%float
  = Some (5 # 2)%Q /\
  F64.cont_var_peh (F64.ramp 10 10) [1 / 2]%float (1 / 4, 1 / 4)%float
    None false
  = Ok (pd_DataFrame [[2; 3; 4; 5; 6]%Z]) /\
  F64.floor_window (F64.ramp 10 10) 5 (1 / 4, 1 / 4)%float
  = Some [3; 4; 5; 6]%Z /\
  F64.cont_var_peh (F64.ramp 10 10) [1 / 2]%float (1 / 4, 1 / 4)%float
    None false
  <> Ok (pd_DataFrame [[3; 4; 5; 6]%Z]).
Proof.
  split_and!; [vm_compute; reflexivity..|].
  vm_compute. discriminate.
Qed.

(** The event at index 8 of 12 samples at 100 samples per unit of time,
    window 0.07 on both sides: the product is a little more than 7, the
    difference a little less than 1, and the row starts at sample 0. *)
Lemma window_bounds_truncate_difference_witness :
  F64.cont_var_peh (F64.ramp 12 100) [8 / 100]%float (7 / 100, 7 / 100)%float
    None false
  = Ok (pd_DataFrame [Z.of_nat <$> seq 0 12]) /\
  F64.resolve (F64.ramp 12 100) false (8 / 100)%float = Ok 8%float /\
  exists x y : Q,
    f64_value (8 - abs (7 / 100) * 100)%float = Some x /\
    f64_value (8 + abs (7 / 100) * 100)%float = Some y /\
    toward_zero x = 0 /\ toward_zero y = 15 /\
    present (pd_DataFrame [Z.of_nat <$> seq 0 12]) 0
    = Some (samples_between (F64.signal (F64.ramp 12 100)) 0 15).
Proof.
  assert (F64.cont_var_peh (F64.ramp 12 100) [8 / 100]%float
            (7 / 100, 7 / 100)%float None false
          = Ok (pd_DataFrame [Z.of_nat <$> seq 0 12])) as Hrun
    by (vm_compute; reflexivity).
  assert (F64.resolve (F64.ramp 12 100) false (8 / 100)%float = Ok 8%float)
    as Hres by (vm_compute; reflexivity).
  split; [exact Hrun|]. split; [exact Hres|].
  destruct (window_bounds_truncate_difference
              (F64.ramp 12 100) [8 / 100]%float (7 / 100, 7 / 100)%float
              None false _ 0%nat (8 / 100)%float 8%float Hrun eq_refl Hres)
    as (x & y & Hx & Hy & Hlo & Hhi & Hrow & _).
  assert (F64.sr (F64.ramp 12 100) = 100%float) as Hsr
    by (vm_compute; reflexivity).
  cbn [fst snd] in Hx, Hy, Hlo, Hhi. rewrite Hsr in Hx, Hy, Hlo, Hhi.
  assert (f64_int (8 - abs (7 / 100) * 100)%float = Ok 0) as Hlo'
    by (vm_compute; reflexivity).
  assert (f64_int (8 + abs (7 / 100) * 100)%float = Ok 15) as Hhi'
    by (vm_compute; reflexivity).
  rewrite Hlo' in Hlo. rewrite Hhi' in Hhi.
  injection Hlo as Hx0. injection Hhi as Hy0.
  exists x, y. split; [exact Hx|]. split; [exact Hy|].
  split; [by symmetry|]. split; [by symmetry|].
  rewrite <- Hx0, <- Hy0 in Hrow. exact (proj2 (Hrow ltac:(lia) ltac:(lia))).
Defined.

(** Index mode with reference values outside the signal, one of them
    huge: no error, and rows that are empty or cut short. *)
Example index_mode_out_of_range64 :
  F64.cont_var_peh (F64.ramp 10 10) [-3; 10; 250; 9; 0x1p1023]%float
    (1 / 10, 1 / 5)%float None true
  = Ok (pd_DataFrame [[6; 7; 8]; [9]; []; [8; 9]; []]%Z).
Proof. vm_compute. reflexivity. Qed.

(** The casts do raise on bounds that are not numbers: a NaN among the
    reference values, an infinite one, a sum that overflows. No table is
    returned. *)
Example index_mode_non_finite_bounds :
  F64.cont_var_peh (F64.ramp 10 10) [-3; nan]%float (1 / 10, 1 / 5)%float
    None true = Raise ValueError /\
  F64.cont_var_peh (F64.ramp 10 10) [-3; infinity]%float
    (1 / 10, 1 / 5)%float None true = Raise OverflowError /\
  F64.cont_var_peh (F64.ramp 10 10) [0x1.fffffffffffffp1023]%float
    (0x1p1020, 0x1p1020)%float None true = Raise OverflowError.
Proof. split_and!; vm_compute; reflexivity. Qed.

(** The tables of the specification's examples, computed in binary64:
    the same as with exact arithmetic. *)
Example binary64_tables :
  F64.cont_var_peh (F64.ramp 100 10) [5]%float (1, 1)%float None false
  = Ok (pd_DataFrame [Z.of_nat <$> seq 40 20]) /\
  F64.cont_var_peh (F64.ramp 100 10) [2 / 10]%float (1, 1)%float None false
  = Ok (Frame 0 [[]]) /\
  F64.cont_var_peh (F64.ramp 10 10) [2 / 10]%float (1, 1)%float None false
  = Ok (Frame 8 [Some <$> [2; 3; 4; 5; 6; 7; 8; 9]%Z]) /\
  F64.cont_var_peh (F64.ramp 100 10) [2 / 10; 5; 98 / 10]%float (1, 1)%float
    None false
  = Ok (pd_DataFrame [[]; Z.of_nat <$> seq 40 20; Z.of_nat <$> seq 88 12]) /\
  F64.cont_var_peh (F64.ramp 100 10) [5; 505 / 100]%float (1, 1)%float
    None false
  = Raise IndexError.
Proof. split_and!; vm_compute; reflexivity. Qed.

(** Where rounding shows: at 100 samples per unit of time the product
    [0.29 * 100] is just below 29 and [0.07 * 100] just above 7. The
    event at index 0 with window 0.29 ends at sample 28, not 29; the
    event at index 28 starts at [int(-0.99...) = 0], so its row is not
    moved to the end of the signal; the events at 8 and 30, both well
    inside a signal of 40 samples, get rows of 15 and of 14 samples. *)
Example binary64_rounded_products :
  f64_bounds 0 (29 / 100, 29 / 100)%float 100 = Ok (-28, 28) /\
  f64_bounds 28 (29 / 100, 29 / 100)%float 100 = Ok (0, 57) /\
  f64_bounds 8 (7 / 100, 7 / 100)%float 100 = Ok (0, 15) /\
  f64_bounds 9 (7 / 100, 7 / 100)%float 100 = Ok (1, 16) /\
  f64_bounds 30 (7 / 100, 7 / 100)%float 100 = Ok (23, 37) /\
  F64.cont_var_peh (F64.ramp 40 100) [8; 30]%float (7 / 100, 7 / 100)%float
    None true
  = Ok (pd_DataFrame [Z.of_nat <$> seq 0 15; Z.of_nat <$> seq 23 14]).
Proof. split_and!; vm_compute; reflexivity. Qed.

(** ** The methods, run on a heap *)

Section MethodFacts.
Context `{NumPy} `{SciPy}.
Implicit Types (h : heap) (self : ref) (o : photometry).

Lemma zscore_run h self o :
  h !! self = Some o ->
  zscore self h =
    (Ok self,
     <[self := with_signal o
                 ((fun v => ((v - np_mean (signal o)) / np_std (signal o))%float)
                    <$> signal o)]> h).
Proof.
  intros Hself. unfold zscore, mbind, py_bind, getattr, set_signal.
  by rewrite !Hself.
Qed.

(** Both filters run the same way: read [sr], design, read [signal],
    filter, store. *)
Ltac run_filter Hself :=
  unfold debleach, lp_filter, butterworth3_zero_phase, store_signal;
  unfold mbind at 1 2 3 4 5; unfold py_bind, getattr, set_signal, call;
  rewrite !Hself;
  destruct (butter _ _ _ _) as [[? ?]|?]; [|done];
  cbn [mbind result_bind fst snd]; rewrite ?Hself;
  destruct (filtfilt _ _ _ _); [|done];
  by rewrite ?Hself.

Lemma debleach_run h self o low :
  h !! self = Some o ->
  debleach self low h =
    store_signal self o (butterworth3_zero_phase highpass low o) h.
Proof. intros Hself. run_filter Hself. Qed.

Lemma lp_filter_run h self o high :
  h !! self = Some o ->
  lp_filter self high h =
    store_signal self o (butterworth3_zero_phase lowpass high o) h.
Proof. intros Hself. run_filter Hself. Qed.

Lemma run_conditioning_dangling op h self :
  h !! self = None ->
  run_conditioning op self h = (Raise DanglingReference, h).
Proof.
  intros Hself. destruct op; simpl;
    unfold debleach, lp_filter, zscore, mbind, py_bind, getattr;
    by rewrite Hself.
Qed.

(** Every run ends in one of three ways. *)
Lemma run_conditioning_cases op h self :
  (h !! self = None /\
   run_conditioning op self h = (Raise DanglingReference, h)) \/
  (exists o e, h !! self = Some o /\
     run_conditioning op self h = (Raise e, h)) \/
  (exists o y, h !! self = Some o /\
     run_conditioning op self h = (Ok self, <[self := with_signal o y]> h) /\
     (length y = length (signal o) \/
      exists b a pt, filtfilt b a (signal o) pt = Ok y)).
Proof.
  destruct (h !! self) as [o|] eqn:Hself.
  - right. destruct op as [low|high|]; simpl.
    + rewrite (debleach_run _ _ _ _ Hself).
      unfold butterworth3_zero_phase.
      destruct (butter _ _ _ _) as [[b a]|e]; simpl; [|left; eauto].
      destruct (filtfilt b a _ _) as [y|e] eqn:Hy; simpl; [|left; eauto].
      right. exists o, y. eauto 10.
    + rewrite (lp_filter_run _ _ _ _ Hself).
      unfold butterworth3_zero_phase.
      destruct (butter _ _ _ _) as [[b a]|e]; simpl; [|left; eauto].
      destruct (filtfilt b a _ _) as [y|e] eqn:Hy; simpl; [|left; eauto].
      right. exists o, y. eauto 10.
    + rewrite (zscore_run _ _ _ Hself). right.
      eexists o, _. split_and!; [done..|]. left. apply length_fmap.
  - left. split; [done|]. by apply run_conditioning_dangling.
Qed.
End MethodFacts.

(** ** The reference filter has [filtfilt]'s shape contract *)

Section ReferenceFilter.
Local Open Scope nat_scope.

Lemma lfilter_length b a z xs : length (lfilter b a z xs) = length xs.
Proof.
  revert z. induction xs as [|x xs IH]; intros z; simpl; [done|].
  by rewrite IH.
Qed.

Lemma extend_length pt x n :
  n < length x ->
  length (extend pt x n) =
    match pt with nopad => length x | _ => n + length x + n end.
Proof.
  intros Hn. unfold extend, left_mirror, right_mirror.
  destruct pt;
    rewrite ?length_app, ?length_fmap, ?length_rev, ?length_take,
      ?length_drop, ?length_replicate; lia.
Qed.

Lemma ref_filtfilt_length b a x pt y :
  ref_filtfilt b a x pt = Ok y -> length y = length x.
Proof.
  unfold ref_filtfilt.
  set (edge := match pt with nopad => 0 | _ => _ end).
  destruct (Nat.leb_spec (length x) edge) as [|Hlt]; [done|].
  intros [= <-].
  rewrite length_take, length_drop, length_rev, lfilter_length,
    length_rev, lfilter_length, extend_length by done.
  unfold edge. destruct pt; lia.
Qed.

Lemma scipy_reference_shape : @SciPyShape scipy_reference.
Proof. intros b a x pt y. apply ref_filtfilt_length. Qed.
End ReferenceFilter.

(** ** Claims about the conditioning methods *)

Section ZScoreClaims.
Context `{NumPy}.
Local Open Scope float_scope.

Lemma np_mean_population x : np_mean x = population_mean x.
Proof. reflexivity. Qed.

Lemma np_std_population x : np_std x = population_std x.
Proof.
  unfold np_std, np_var, population_std.
  rewrite Nat.sub_0_r, <- list_fmap_compose. reflexivity.
Qed.

(** C6, as amended. [zscore] stores, in place of the signal, the list of
    [(v - mean) / std] for its samples [v], in order, where [mean] is the
    sum of the samples over their number and [std] the square root of the
    mean squared deviation (the divisor is the number of samples: no
    Bessel correction); nothing else changes. It never raises. When the
    computed [std] is 0, every sample of the stored signal is a NaN or an
    infinity. *)
Theorem zscore_population_standardisation (h : heap) self o :
  h !! self = Some o ->
  let x := signal o in
  let mean := population_mean x in
  let std := population_std x in
  np_mean x = mean /\
  np_std x = std /\
  exists h' o',
    zscore self h = (Ok self, h') /\
    h' !! self = Some o' /\
    signal o' = (fun v => (v - mean) / std) <$> x /\
    (forall k v, x !! k = Some v ->
       signal o' !! k = Some ((v - mean) / std)) /\
    length (signal o') = length x /\
    timestamps o' = timestamps o /\ sr o' = sr o /\
    name o' = name o /\ annotations o' = annotations o /\
    (forall l, l <> self -> h' !! l = h !! l) /\
    ((std =? 0) = true ->
     forall z, z ∈ signal o' -> is_finite z = false).
Proof.
  intros Hself x mean std. split_and!.
  - apply np_mean_population.
  - apply np_std_population.
  - rewrite (zscore_run _ _ _ Hself).
    rewrite np_mean_population, np_std_population. fold x mean std.
    eexists _, _. split; [reflexivity|].
    split; [apply lookup_insert_eq|]. cbn [with_signal signal].
    split_and!; try done.
    + intros k v Hk. by rewrite list_lookup_fmap, Hk.
    + apply length_fmap.
    + intros l Hl. by rewrite lookup_insert_ne.
    + intros Hstd z (v & -> & _)%list_elem_of_fmap.
      by apply div_by_zero_not_finite.
Qed.
End ZScoreClaims.

(** C6, as stated, fails: three samples equal to the float nearest to 0.1
    are a constant signal, but their sum, taken from left to right as
    numpy does for so short an array, is not three times that float; the
    mean lies just above the samples, [std] is not 0, and the result is
    -1, -1, -1: finite. *)
Lemma constant_signal_with_finite_zscore :
  signal constant_tenths = replicate 3 (1 / 10)%float /\
  (@population_std numpy_sequential (signal constant_tenths) =? 0)%float
  = false /\
  (@zscore numpy_sequential 1%positive {[1%positive := constant_tenths]}).1
  = Ok 1%positive /\
  (signal <$>
     (@zscore numpy_sequential 1%positive
        {[1%positive := constant_tenths]}).2 !! 1%positive)
  = Some [(-1)%float; (-1)%float; (-1)%float] /\
  Forall (fun z => is_finite z = true) [(-1)%float; (-1)%float; (-1)%float] /\
  ~ (forall z, z ∈ [(-1)%float; (-1)%float; (-1)%float] ->
               is_finite z = false).
Proof.
  split_and!; [vm_compute; reflexivity..| |].
  - repeat constructor.
  - intros Hall. specialize (Hall (-1)%float). 
    assert (is_finite (-1) = false) as Hf by (apply Hall; left).
    vm_compute in Hf. discriminate.
Qed.

Lemma zscore_population_standardisation_witness :
  ({[1%positive := constant_twos]} : heap) !! 1%positive
  = Some constant_twos /\
  (@population_std numpy_sequential (signal constant_twos) =? 0)%float
  = true /\
  exists h' o',
    @zscore numpy_sequential 1%positive {[1%positive := constant_twos]}
    = (Ok 1%positive, h') /\
    h' !! 1%positive = Some o' /\
    signal o' = [nan; nan; nan] /\
    forall z, z ∈ signal o' -> is_finite z = false.
Proof.
  assert (({[1%positive := constant_twos]} : heap) !! 1%positive
          = Some constant_twos) as Hself by reflexivity.
  assert ((@population_std numpy_sequential (signal constant_twos) =? 0)%float
          = true) as Hstd by (vm_compute; reflexivity).
  split_and!; [exact Hself|exact Hstd|].
  destruct (@zscore_population_standardisation numpy_sequential _ _ _ Hself)
    as (_ & _ & h' & o' & Hrun & Ho' & Hsig & _ & _ & _ & _ & _ & _ & _ &
        Hnonfinite).
  exists h', o'. split_and!; [exact Hrun|exact Ho'| |exact (Hnonfinite Hstd)].
  rewrite Hsig. vm_compute. reflexivity.
Defined.

(** With the population standard deviation the samples 1 and 3 (mean 2,
    deviation 1) become -1 and 1; a Bessel-corrected deviation would be
    the square root of 2. *)
Example zscore_two_samples :
  (signal <$>
     (@zscore numpy_sequential 1%positive {[1%positive := two_samples]}).2
       !! 1%positive)
  = Some [(-1)%float; 1%float].
Proof. vm_compute. reflexivity. Qed.

(** A constant signal whose mean is exact is turned into NaNs. *)
Example zscore_constant_signal :
  (signal <$>
     (@zscore numpy_sequential 1%positive {[1%positive := constant_twos]}).2
       !! 1%positive)
  = Some [nan; nan; nan].
Proof. vm_compute. reflexivity. Qed.

Section FilterClaims.
Context `{S : SciPy}.


End FilterClaims.


Section ConditioningClaims.
Context `{NumPy} `{SciPy}.
Implicit Types (h : heap) (self : ref) (op : conditioning).

(** C8. A conditioning operation changes nothing but the signal of the
    object it is called on: every other object is untouched, the
    timestamps, sampling rate, name and annotations of [self] are kept,
    and the value returned is [self], so a second operation can be
    applied to the result. When the operation raises, the heap is
    unchanged. *)
Theorem conditioning_frame op self h r h' :
  run_conditioning op self h = (r, h') ->
  (forall l, l <> self -> h' !! l = h !! l) /\
  match r with
  | Ok l =>
      l = self /\
      (exists o y,
          h !! self = Some o /\
          h' = <[self := with_signal o y]> h /\
          exists o', h' !! self = Some o' /\
            signal o' = y /\
            timestamps o' = timestamps o /\ sr o' = sr o /\
            name o' = name o /\ annotations o' = annotations o) /\
      forall op2,
        (run_conditioning op self ≫= run_conditioning op2) h =
        run_conditioning op2 self h'
  | Raise _ => h' = h
  end.
Proof.
  intros Hrun.
  destruct (run_conditioning_cases op h self)
    as [[Hnone Heq]|[(o & e & Hself & Heq)|(o & y & Hself & Heq & _)]];
    rewrite Heq in Hrun; injection Hrun as <- <-; try done.
  split.
  - intros l Hl. by rewrite lookup_insert_ne.
  - split_and!; [done| |].
    + exists o, y. split_and!; [done..|].
      exists (with_signal o y). by rewrite lookup_insert_eq.
    + intros op2. unfold mbind at 1. unfold py_bind. by rewrite Heq.
Qed.

(** C7. A conditioning operation keeps [len(signal) == len(timestamps)]
    on the object it is called on: the signal it stores has the length of
    the signal it read. As no other object changes, the invariant is kept
    on the whole heap. The shape contract of [filtfilt] is assumed. *)
Theorem conditioning_preserves_length `{!SciPyShape} op self h r h' o :
  h !! self = Some o ->
  length (signal o) = length (timestamps o) ->
  run_conditioning op self h = (r, h') ->
  (exists o',
      h' !! self = Some o' /\
      length (signal o') = length (signal o) /\
      length (signal o') = length (timestamps o')) /\
  (well_formed h -> well_formed h').
Proof.
  intros Hself Hinv Hrun.
  destruct (run_conditioning_cases op h self)
    as [[Hnone _]|[(o1 & e & Hself1 & Heq)|(o1 & y & Hself1 & Heq & Hy)]];
    [congruence|..];
    assert (o1 = o) as -> by congruence;
    rewrite Heq in Hrun; injection Hrun as <- <-.
  - split; [by exists o|done].
  - assert (length y = length (signal o)) as Hlen.
    { destruct Hy as [Hy|(b & a & pt & Hy)]; [done|].
      by apply filtfilt_shape in Hy. }
    split.
    + exists (with_signal o y). rewrite lookup_insert_eq. simpl.
      split_and!; [done..|]. by rewrite Hlen.
    + intros Hwf l o1. rewrite lookup_insert.
      case_decide as Hl; [|apply Hwf].
      intros [= <-]. simpl. by rewrite Hlen.
Qed.
End ConditioningClaims.

Lemma conditioning_frame_witness :
  ((@run_conditioning numpy_sequential scipy_reference (Debleach 1%Q)
      1%positive {[1%positive := sawtooth; 2%positive := two_samples]}).2
     : heap) !! 2%positive
  = ({[1%positive := sawtooth; 2%positive := two_samples]} : heap)
      !! 2%positive.
Proof.
  refine (proj1 (@conditioning_frame numpy_sequential scipy_reference
                   (Debleach 1%Q) 1%positive _ _ _
                   (surjective_pairing _)) 2%positive _).
  discriminate.
Defined.

Lemma conditioning_preserves_length_witness :
  ({[1%positive := sawtooth]} : heap) !! 1%positive = Some sawtooth /\
  length (signal sawtooth) = length (timestamps sawtooth) /\
  exists o',
    (@run_conditioning numpy_sequential scipy_reference
       (LowPassFilter 1%Q) 1%positive {[1%positive := sawtooth]}).2
      !! 1%positive = Some o' /\
    length (signal o') = length (signal sawtooth) /\
    length (signal o') = length (timestamps o').
Proof.
  assert (({[1%positive := sawtooth]} : heap) !! 1%positive = Some sawtooth)
    as Hself by reflexivity.
  assert (length (signal sawtooth) = length (timestamps sawtooth))
    as Hinv by reflexivity.
  split_and!; [exact Hself|exact Hinv|].
  exact (proj1 (@conditioning_preserves_length numpy_sequential
                  scipy_reference scipy_reference_shape (LowPassFilter 1%Q)
                  1%positive _ _ _ _ Hself Hinv (surjective_pairing _))).
Defined.

(** The reference filter does return on this recording, and the stored
    signal has the 20 samples of the original. *)
Example lp_filter_sawtooth_length :
  (length ∘ signal <$>
     (@lp_filter scipy_reference 1%positive 1%Q
        {[1%positive := sawtooth]}).2 !! 1%positive)
  = Some 20%nat /\
  (@lp_filter scipy_reference 1%positive 1%Q {[1%positive := sawtooth]}).1
  = Ok 1%positive.
Proof. split; vm_compute; reflexivity. Qed.

(** The specification's lookup failure: 5.05 is not on an axis that steps
    by 0.1, and the rows of the events before it are not returned. *)
Example lookup_failure_5_05 :
  cont_var_peh (ramp 100 10) [5 # 1; 505 # 100]%Q (1 # 1, 1 # 1)%Q None false
  = Raise IndexError.
Proof. vm_compute. reflexivity. Qed.

(** With repeated timestamps the first match is taken. *)
Example first_match_of_repeated_timestamp :
  item0 (np_where_eq [0 # 1; 1 # 1; 1 # 1; 2 # 1]%Q (1 # 1)%Q) = Ok 1%nat.
Proof. reflexivity. Qed.

(** Index mode with references outside the signal: no error, and rows that
    are empty or cut short. *)
Example index_mode_out_of_range :
  cont_var_peh (ramp 10 10) [(-3) # 1; 10 # 1; 250 # 1; 9 # 1]%Q
    (1 # 10, 1 # 5)%Q None true
  = Ok (pd_DataFrame [[6; 7; 8]; [9]; []; [8; 9]]%Z).
Proof. vm_compute. reflexivity. Qed.

(** The examples again, in binary64: the event times resolve to the same
    indices and the casts give the same bounds. *)
Example binary64_window_bounds :
  item0 (f64_where_eq_from 0 (f64_tenths 100) 5) = Ok 50%nat /\
  f64_bounds 50 (1, 1)%float 10 = Ok (40, 60) /\
  item0 (f64_where_eq_from 0 (f64_tenths 100) (2 / 10)) = Ok 2%nat /\
  f64_bounds 2 (1, 1)%float 10 = Ok (-8, 12) /\
  item0 (f64_where_eq_from 0 (f64_tenths 10) (1 / 2)) = Ok 5%nat /\
  f64_bounds 5 (1 / 4, 1 / 4)%float 10 = Ok (2, 7).
Proof. split_and!; vm_compute; reflexivity. Qed.

(** * Further properties *)

(** ** More on slices and tables *)

Section MoreSliceFacts.
Context {A : Type}.
Implicit Types l : list A.
Local Open Scope Z_scope.

Lemma py_slice_is_run l start stop :
  exists l1 l2, l = l1 ++ py_slice l start stop ++ l2.
Proof.
  unfold py_slice.
  set (k := Z.to_nat (adjust_index (Z.of_nat (length l)) start)).
  set (n := Z.to_nat _).
  exists (take k l), (drop n (drop k l)). by rewrite !take_drop.
Qed.

Lemma py_slice_empty l start : py_slice l start start = [].
Proof. unfold py_slice. by rewrite Z.sub_diag. Qed.

Lemma py_slice_fmap {B} (f : A -> B) l start stop :
  py_slice (f <$> l) start stop = f <$> py_slice l start stop.
Proof. unfold py_slice. by rewrite length_fmap, fmap_take, fmap_drop. Qed.

Lemma py_slice_length_only {B} l (l' : list B) start stop :
  length l = length l' ->
  length (py_slice l start stop) = length (py_slice l' start stop).
Proof.
  intros Hlen. unfold py_slice.
  by rewrite !length_take, !length_drop, Hlen.
Qed.
End MoreSliceFacts.

Section MoreFrameFacts.
Context {A : Type}.
Implicit Types rows : list (list A).
Local Open Scope nat_scope.

Lemma max_len_le rows n :
  (forall r, r ∈ rows -> length r <= n) -> max_len rows <= n.
Proof.
  induction rows as [|r rows IH]; intros Hall; simpl; [lia|].
  assert (length r <= n) by (apply Hall; left).
  assert (max_len rows <= n) by (apply IH; intros r' ?; apply Hall; by right).
  lia.
Qed.

Lemma max_len_app rows rows' :
  max_len (rows ++ rows') = Nat.max (max_len rows) (max_len rows').
Proof. induction rows as [|r rows IH]; simpl; [done|]. rewrite IH. lia. Qed.

Lemma max_len_lengths {B} rows (rows' : list (list B)) :
  length <$> rows = length <$> rows' -> max_len rows = max_len rows'.
Proof.
  revert rows'. induction rows as [|r rows IH]; intros [|r' rows'] Heq;
    try done.
  injection Heq as Hr Hrows. simpl. by rewrite Hr, (IH rows').
Qed.

Lemma df_rows_pd_DataFrame rows : df_rows (pd_DataFrame rows) = rows.
Proof.
  unfold df_rows, pd_DataFrame. cbn [df_values].
  rewrite <- list_fmap_compose.
  transitivity (id <$> rows); [|apply list_fmap_id].
  apply list_fmap_ext. intros _ r _. apply pad_row_present.
Qed.

Lemma df_values_pd_DataFrame rows k :
  df_values (pd_DataFrame rows) !! k =
    pad_row (max_len rows) <$> rows !! k.
Proof. unfold pd_DataFrame. cbn [df_values]. apply list_lookup_fmap. Qed.

Lemma pad_row_fmap {B} (f : A -> B) w (r : list A) :
  pad_row w (f <$> r) = fmap (M:=list) (fmap (M:=option) f) (pad_row w r).
Proof.
  unfold pad_row. rewrite fmap_app, length_fmap, fmap_replicate.
  by rewrite <- !list_fmap_compose.
Qed.

Lemma pd_DataFrame_fmap {B} (f : A -> B) rows :
  pd_DataFrame (fmap (M:=list) (fmap (M:=list) f) rows)
  = df_map f (pd_DataFrame rows).
Proof.
  unfold pd_DataFrame, df_map. cbn [df_columns df_values].
  assert (max_len (fmap (M:=list) (fmap (M:=list) f) rows) = max_len rows)
    as ->.
  { symmetry. apply max_len_lengths. rewrite <- list_fmap_compose.
    apply list_fmap_ext. intros _ r _. symmetry. apply length_fmap. }
  f_equal. rewrite <- !list_fmap_compose.
  apply list_fmap_ext. intros _ r _. apply pad_row_fmap.
Qed.

End MoreFrameFacts.

Lemma pd_DataFrame_shape {A B} (rows : list (list A))
    (rows' : list (list B)) :
  length <$> rows = length <$> rows' ->
  df_shape (pd_DataFrame rows) = df_shape (pd_DataFrame rows').
Proof.
  intros Hlen. pose proof (max_len_lengths _ _ Hlen) as Hmax.
  unfold df_shape, pd_DataFrame. cbn [df_columns df_values].
  rewrite !length_fmap, Hmax. f_equal.
  apply (f_equal length) in Hlen. by rewrite !length_fmap in Hlen.
Qed.

(** ** Further properties of [cont_var_peh] *)

Section PehExtras.
Context {A : Type}.
Implicit Types (data : cont_var A) (min_max : Q * Q) (refs : list Q).
Local Open Scope nat_scope.

(** X1. Every row of a returned table is a run of consecutive samples of
    the signal, in signal order, followed by missing-value markers only;
    so no row, and no table, is wider than the signal is long. This holds
    in both modes and for every window, also one that leaves the signal. *)
Theorem rows_are_runs_of_the_signal data refs min_max nm idx df :
  cont_var_peh data refs min_max nm idx = Ok df ->
  df_columns df <= length (signal data) /\
  forall k cells, df_values df !! k = Some cells ->
    cells = pad_row (df_columns df) (strip_markers cells) /\
    exists l1 l2, signal data = l1 ++ strip_markers cells ++ l2.
Proof.
  rewrite cont_var_peh_eq.
  destruct (mapM _ refs) as [ps|]; [|done]. intros [= <-].
  cbn [pd_DataFrame df_columns]. split.
  - apply max_len_le. intros row (p & -> & _)%list_elem_of_fmap.
    apply py_slice_length.
  - intros k cells. rewrite df_values_pd_DataFrame, list_lookup_fmap.
    destruct (ps !! k) as [p|]; [|done]. intros [= <-].
    rewrite pad_row_present. split; [done|]. apply py_slice_is_run.
Qed.

(** X2. Timestamp mode is index mode applied to the matched indices: when
    the reference times have their first exact matches at [idxs], the call
    returns what the call in index mode returns on [idxs]. *)
Theorem timestamp_mode_is_index_mode_at_matches
    data refs idxs min_max nm nm' :
  Forall2 (first_match_at (timestamps data)) refs idxs ->
  cont_var_peh data refs min_max nm false =
  cont_var_peh data (of_index <$> idxs) min_max nm' true.
Proof.
  intros Hall. rewrite !cont_var_peh_eq.
  rewrite mapM_resolve_by_index, mapM_resolve_by_timestamp.
  assert (mapM (first_exact_match (timestamps data)) refs = Some idxs)
    as ->; [|done].
  apply mapM_Some. eapply Forall2_impl; [done|].
  intros r i. by rewrite first_exact_match_Some.
Qed.

Lemma mapM_option_app {B C} (f : B -> option C) l1 l2 :
  mapM f (l1 ++ l2) =
    match mapM f l1, mapM f l2 with
    | Some k1, Some k2 => Some (k1 ++ k2)
    | _, _ => None
    end.
Proof.
  induction l1 as [|x l1 IH]; simpl.
  - by destruct (mapM f l2).
  - destruct (f x); simpl; [|done]. rewrite IH.
    by destruct (mapM f l1), (mapM f l2).
Qed.

(** X3. Extracting for two lists of events at once stacks the two tables:
    the rows of the first list, then the rows of the second, completed to
    the wider of the two; the combined call fails exactly when one of the
    two fails. *)
Theorem batches_stack data refs1 refs2 min_max nm idx :
  cont_var_peh data (refs1 ++ refs2) min_max nm idx =
    match cont_var_peh data refs1 min_max nm idx,
          cont_var_peh data refs2 min_max nm idx with
    | Ok df1, Ok df2 => Ok (pd_DataFrame (df_rows df1 ++ df_rows df2))
    | Raise e, _ => Raise e
    | _, Raise e => Raise e
    end /\
  forall df1 df2,
    cont_var_peh data refs1 min_max nm idx = Ok df1 ->
    cont_var_peh data refs2 min_max nm idx = Ok df2 ->
    df_shape (pd_DataFrame (df_rows df1 ++ df_rows df2)) =
      (length refs1 + length refs2,
       Nat.max (df_columns df1) (df_columns df2)).
Proof.
  rewrite !cont_var_peh_eq, mapM_option_app.
  destruct (mapM _ refs1) as [ps1|] eqn:H1,
           (mapM _ refs2) as [ps2|] eqn:H2; try done.
  - split.
    + by rewrite !df_rows_pd_DataFrame, fmap_app.
    + intros df1 df2 [= <-] [= <-]. rewrite !df_rows_pd_DataFrame.
      unfold df_shape. cbn [pd_DataFrame df_values df_columns].
      rewrite max_len_app, !length_fmap, length_app, !length_fmap.
      by rewrite <- (length_mapM _ _ _ H1), <- (length_mapM _ _ _ H2).
Qed.

(** X8. A window of no width gives rows of no samples: when both
    [|before| * sr] and [|after| * sr] are zero (a (0, 0) window, or a
    sampling rate of 0) a call that returns gives one empty row per
    reference point and no column; the sample of the event itself is not
    included. *)
Theorem zero_width_window_has_no_columns data refs min_max nm idx df :
  (Qabs (fst min_max) * sr data == 0)%Q ->
  (Qabs (snd min_max) * sr data == 0)%Q ->
  cont_var_peh data refs min_max nm idx = Ok df ->
  df = Frame 0 (replicate (length refs) []).
Proof.
  intros Hb Ha. rewrite cont_var_peh_eq.
  destruct (mapM _ refs) as [ps|] eqn:Hps; [|done]. intros [= <-].
  rewrite (length_mapM _ _ _ Hps).
  assert ((fun p => c_trial data p min_max) <$> ps
          = replicate (length ps) []) as ->.
  { clear Hps. induction ps as [|p ps IH]; [done|].
    cbn [fmap list_fmap length replicate]. f_equal; [|done].
    unfold c_trial, window_start, window_end.
    assert (py_int (p + Qabs (snd min_max) * sr data)
            = py_int (p - Qabs (fst min_max) * sr data)) as ->.
    { apply py_int_proper. rewrite Ha, Hb. ring. }
    apply py_slice_empty. }
  unfold pd_DataFrame. generalize (length ps). intros n.
  assert (max_len (replicate n (@nil A)) = 0) as ->.
  { induction n; simpl; lia. }
  f_equal. induction n; simpl; f_equal; auto.
Qed.
End PehExtras.

(** ** The right edge, in binary64 *)

Section Peh64Extras.
Context {A : Type}.
Implicit Types (data : F64.cont_var A) (min_max : float * float).
Implicit Types (refs : list float).

(** X4. A window that runs past the last sample is cut at the end of the
    signal: when the first bound [int(start)] is not negative and the
    second bound [int(end)] is at or beyond the number of samples, the row
    is the signal from the first bound to its last sample, neither padded
    nor refused. *)
Theorem window_past_the_end_is_cut
    data refs min_max nm idx df k r pos lo hi :
  F64.cont_var_peh data refs min_max nm idx = Ok df ->
  refs !! k = Some r ->
  F64.resolve data idx r = Ok pos ->
  f64_int (F64.window_start data pos min_max) = Ok lo ->
  f64_int (F64.window_end data pos min_max) = Ok hi ->
  0 <= lo ->
  Z.of_nat (length (F64.signal data)) <= hi ->
  present df k = Some (drop (Z.to_nat lo) (F64.signal data)).
Proof.
  intros Hrun Hk Hres Hlo Hhi Hlo0 Hend.
  destruct (row_of_reference64 _ _ _ _ _ _ _ _ Hrun Hk)
    as (row & Hrow & _ & ->).
  unfold F64.row_of in Hrow. rewrite Hres in Hrow.
  cbn [mbind result_bind] in Hrow.
  apply c_trial_Ok in Hrow as (lo' & hi' & Hlo' & Hhi' & ->).
  assert (lo' = lo) as -> by congruence.
  assert (hi' = hi) as -> by congruence.
  rewrite py_slice_nonneg by lia. unfold samples_between. f_equal.
  apply take_ge. rewrite length_drop. lia.
Qed.
End Peh64Extras.

(** ** Construction, chained calls, and extraction after conditioning *)

(** X9. Creating a recording never fails and checks nothing: the new
    object holds the five arguments as given, under a reference that no
    object had, and the objects that existed are untouched. So
    [len(signal) == len(timestamps)] holds on the heap afterwards exactly
    when it held before and the caller passed as many timestamps as
    samples. *)
Theorem construction_checks_nothing (h : heap) sig rate ts nm an :
  exists self,
    photometry_init sig rate ts nm an h =
      (Ok self, <[self := ContVar sig rate ts nm an]> h) /\
    h !! self = None /\
    (forall l o, h !! l = Some o ->
       (<[self := ContVar sig rate ts nm an]> h) !! l = Some o) /\
    (well_formed (<[self := ContVar sig rate ts nm an]> h) <->
     well_formed h /\ length sig = length ts).
Proof.
  exists (fresh (dom h)).
  assert (h !! fresh (dom h) = None) as Hfresh.
  { apply not_elem_of_dom, is_fresh. }
  split_and!; [done|done| |].
  - intros l o Hl. rewrite lookup_insert_ne; [done|]. congruence.
  - split.
    + intros Hwf. split.
      * intros l o Hl. apply (Hwf l). rewrite lookup_insert_ne; [done|].
        congruence.
      * apply (Hwf (fresh (dom h)) (ContVar sig rate ts nm an)).
        by rewrite lookup_insert_eq.
    + intros [Hwf Hlen] l o. rewrite lookup_insert.
      case_decide; [|apply Hwf]. by intros [= <-].
Qed.

Section ChainFacts.
Context `{NumPy} `{SciPy}.
Implicit Types (h : heap) (self : ref) (ops : list conditioning).

Lemma chain_app ops1 ops2 self h :
  chain (ops1 ++ ops2) self h = (chain ops1 self ≫= chain ops2) h.
Proof.
  revert self h. induction ops1 as [|op ops1 IH]; intros self h; [done|].
  cbn [app chain]. unfold mbind, py_bind.
  destruct (run_conditioning op self h) as [[l|e] h1]; [|done].
  apply IH.
Qed.

Lemma run_conditioning_Ok op self h l h' :
  run_conditioning op self h = (Ok l, h') -> l = self.
Proof.
  intros Hrun.
  destruct (run_conditioning_cases op h self)
    as [[_ Heq]|[(o & e & _ & Heq)|(o & y & _ & Heq & _)]];
    rewrite Heq in Hrun; congruence.
Qed.

Lemma run_conditioning_Raise op self h e h' :
  run_conditioning op self h = (Raise e, h') -> h' = h.
Proof.
  intros Hrun.
  destruct (run_conditioning_cases op h self)
    as [[_ Heq]|[(o & e' & _ & Heq)|(o & y & _ & Heq & _)]];
    rewrite Heq in Hrun; congruence.
Qed.

Lemma chain_Ok ops self h l h' : chain ops self h = (Ok l, h') -> l = self.
Proof.
  revert h. induction ops as [|op ops IH]; intros h; [by intros [= <-]|].
  cbn [chain]. unfold mbind, py_bind.
  destruct (run_conditioning op self h) as [[l1|e] h1] eqn:Hstep; [|done].
  apply run_conditioning_Ok in Hstep as ->. apply IH.
Qed.

(** What one operation does to the heap, whether it returns or raises. *)
Lemma run_conditioning_effect `{!SciPyShape} op self h r h' o :
  h !! self = Some o ->
  run_conditioning op self h = (r, h') ->
  (forall l, l <> self -> h' !! l = h !! l) /\
  exists o',
    h' !! self = Some o' /\
    timestamps o' = timestamps o /\ sr o' = sr o /\
    name o' = name o /\ annotations o' = annotations o /\
    length (signal o') = length (signal o).
Proof.
  intros Hself Hrun.
  destruct (run_conditioning_cases op h self)
    as [[Hnone _]|[(o1 & e & Hself1 & Heq)|(o1 & y & Hself1 & Heq & Hy)]];
    [congruence|..];
    assert (o1 = o) as -> by congruence;
    rewrite Heq in Hrun; injection Hrun as <- <-.
  - split; [done|]. by exists o.
  - split; [intros l Hl; by rewrite lookup_insert_ne|].
    exists (with_signal o y). rewrite lookup_insert_eq.
    split_and!; [done..|]. simpl.
    destruct Hy as [Hy|(b & a & pt & Hy)]; [done|].
    by apply filtfilt_shape in Hy.
Qed.

(** What a chain of calls does to the heap, whether it returns or
    raises. *)
Lemma chain_effect `{!SciPyShape} ops self h r h' o :
  h !! self = Some o ->
  chain ops self h = (r, h') ->
  (forall l, l <> self -> h' !! l = h !! l) /\
  exists o',
    h' !! self = Some o' /\
    timestamps o' = timestamps o /\ sr o' = sr o /\
    name o' = name o /\ annotations o' = annotations o /\
    length (signal o') = length (signal o).
Proof.
  revert h o. induction ops as [|op ops IH]; intros h o Hself.
  - intros [= <- <-]. split; [done|]. by exists o.
  - cbn [chain]. unfold mbind, py_bind.
    destruct (run_conditioning op self h) as [[l1|e] h1] eqn:Hstep.
    + pose proof (run_conditioning_Ok _ _ _ _ _ Hstep) as ->.
      destruct (run_conditioning_effect _ _ _ _ _ _ Hself Hstep)
        as (Hother1 & o1 & Ho1 & Hts & Hsr & Hnm & Han & Hlen).
      intros Hrun.
      destruct (IH h1 o1 Ho1 Hrun)
        as (Hother & o' & Ho' & Hts' & Hsr' & Hnm' & Han' & Hlen').
      split.
      * intros l Hl. by rewrite (Hother l Hl), (Hother1 l Hl).
      * exists o'. split_and!; [done|congruence..].
    + intros [= <- <-].
      by apply (run_conditioning_effect _ _ _ _ _ _ Hself Hstep).
Qed.

(** X10. A chain of conditioning calls, however long and whether it ends
    normally or in an exception, leaves every other object as it was and
    keeps the timestamps, sampling rate, name, annotations and number of
    samples of the object it runs on; when it returns, it returns that
    object. The shape contract of [filtfilt] is assumed for the number of
    samples. *)
Theorem chain_keeps_the_recording `{!SciPyShape} ops self h r h' o :
  h !! self = Some o ->
  chain ops self h = (r, h') ->
  (forall l, l <> self -> h' !! l = h !! l) /\
  (exists o',
      h' !! self = Some o' /\
      timestamps o' = timestamps o /\ sr o' = sr o /\
      name o' = name o /\ annotations o' = annotations o /\
      length (signal o') = length (signal o)) /\
  (forall l, r = Ok l -> l = self).
Proof.
  intros Hself Hrun.
  destruct (chain_effect _ _ _ _ _ _ Hself Hrun) as [Hother Hkept].
  split_and!; [done..|]. intros l ->. by eapply chain_Ok.
Qed.

(** X11. A chain that fails is not undone: when the calls [ops1] have
    returned and the next call [op] raises, the whole chain raises that
    exception, the calls after [op] are not run, and the object is left
    as [ops1] made it. *)
Theorem chain_stops_at_first_failure ops1 op ops2 self h l h1 e h1' :
  chain ops1 self h = (Ok l, h1) ->
  run_conditioning op l h1 = (Raise e, h1') ->
  chain (ops1 ++ op :: ops2) self h = (Raise e, h1) /\
  l = self /\ h1' = h1.
Proof.
  intros Hfirst Hop.
  pose proof (run_conditioning_Raise _ _ _ _ _ Hop) as ->.
  pose proof (chain_Ok _ _ _ _ _ Hfirst) as ->.
  split_and!; [|done..].
  rewrite chain_app. unfold mbind at 1. unfold py_bind. rewrite Hfirst.
  cbn [chain]. unfold mbind, py_bind. by rewrite Hop.
Qed.
End ChainFacts.

Section ExtractionAfterConditioning.
Implicit Types (o : photometry) (refs : list Q) (min_max : Q * Q).

Lemma resolve_same_timestamps {A B} (d : cont_var A) (d' : cont_var B)
    idx r :
  timestamps d' = timestamps d -> resolve d' idx r = resolve d idx r.
Proof. intros Hts. unfold resolve. by rewrite Hts. Qed.

Lemma mapM_resolve_same_timestamps {A B} (d : cont_var A) (d' : cont_var B)
    idx refs :
  timestamps d' = timestamps d ->
  mapM (resolve d' idx) refs = mapM (resolve d idx) refs.
Proof.
  intros Hts. induction refs as [|r refs IH]; [done|].
  cbn [mapM]. by rewrite IH, (resolve_same_timestamps d d').
Qed.

Lemma c_trial_with_signal o (g : float -> float) p min_max :
  c_trial (with_signal o (g <$> signal o)) p min_max =
  g <$> c_trial o p min_max.
Proof. unfold c_trial, window_start, window_end. apply py_slice_fmap. Qed.

(** X12. Z-scoring and extraction commute: the windows of a z-scored
    recording are the windows of the raw recording with every sample [v]
    replaced by [(v - mean) / std], where [mean] and [std] are those of
    the whole signal, not of the window; the same calls fail, and the
    same entries are missing. *)
Theorem windows_of_zscored_recording `{NumPy}
    (h : heap) self o refs min_max nm idx :
  h !! self = Some o ->
  exists o',
    (zscore self h).2 !! self = Some o' /\
    cont_var_peh o' refs min_max nm idx =
      match cont_var_peh o refs min_max nm idx with
      | Ok df =>
          Ok (df_map
                (fun v => ((v - population_mean (signal o))
                           / population_std (signal o))%float) df)
      | Raise e => Raise e
      end.
Proof.
  intros Hself. rewrite (zscore_run _ _ _ Hself).
  rewrite np_mean_population, np_std_population.
  eexists. split; [apply lookup_insert_eq|].
  rewrite !cont_var_peh_eq.
  rewrite (mapM_resolve_same_timestamps o (with_signal o _)) by done.
  destruct (mapM _ refs) as [ps|]; [|done]. f_equal.
  rewrite <- pd_DataFrame_fmap, <- list_fmap_compose. f_equal.
  apply list_fmap_ext. intros _ p _. apply c_trial_with_signal.
Qed.

(** Two recordings with the same timestamps, sampling rate and number of
    samples give tables of the same shape. *)
Lemma same_shape {A B} (d : cont_var A) (d' : cont_var B)
    refs min_max nm idx :
  timestamps d' = timestamps d -> sr d' = sr d ->
  length (signal d') = length (signal d) ->
  match cont_var_peh d refs min_max nm idx,
        cont_var_peh d' refs min_max nm idx with
  | Ok df, Ok df' => df_shape df = df_shape df'
  | Raise e, Raise e' => e = e'
  | _, _ => False
  end.
Proof.
  intros Hts Hsr Hlen. rewrite !cont_var_peh_eq.
  rewrite (mapM_resolve_same_timestamps d d') by done.
  destruct (mapM _ refs) as [ps|]; [|done].
  apply pd_DataFrame_shape. rewrite <- !list_fmap_compose.
  apply list_fmap_ext. intros _ p _. unfold compose, c_trial.
  unfold window_start, window_end. rewrite Hsr.
  by apply py_slice_length_only.
Qed.

(** X13. Conditioning does not change the shape of the trial matrix: the
    recording after any chain of conditioning calls gives, for the same
    events and window, a table with the same number of rows and of
    columns, and fails on the same events with the same exception. The
    shape contract of [filtfilt] is assumed. *)
Theorem conditioning_keeps_table_shape `{NumPy} `{SciPy} `{!SciPyShape}
    ops self (h : heap) r h' o o' refs min_max nm idx :
  h !! self = Some o ->
  chain ops self h = (r, h') ->
  h' !! self = Some o' ->
  match cont_var_peh o refs min_max nm idx,
        cont_var_peh o' refs min_max nm idx with
  | Ok df, Ok df' => df_shape df = df_shape df'
  | Raise e, Raise e' => e = e'
  | _, _ => False
  end.
Proof.
  intros Hself Hrun Hself'.
  destruct (chain_effect _ _ _ _ _ _ Hself Hrun)
    as (_ & o1 & Ho1 & Hts & Hsr & _ & _ & Hlen).
  assert (o1 = o') as -> by congruence.
  by apply same_shape.
Qed.
End ExtractionAfterConditioning.

(** ** The further properties on concrete recordings *)

(** Three events of a 100-sample recording, one of them too close to the
    start. *)
Lemma rows_are_runs_of_the_signal_witness :
  cont_var_peh (ramp 100 10) [2 # 10; 5 # 1; 98 # 10]%Q (1 # 1, 1 # 1)%Q
    None false
  = Ok (pd_DataFrame [[]; Z.of_nat <$> seq 40 20; Z.of_nat <$> seq 88 12]) /\
  (df_columns
     (pd_DataFrame [[]; Z.of_nat <$> seq 40 20; Z.of_nat <$> seq 88 12])
   <= length (signal (ramp 100 10)))%nat.
Proof.
  assert (cont_var_peh (ramp 100 10) [2 # 10; 5 # 1; 98 # 10]%Q
            (1 # 1, 1 # 1)%Q None false
          = Ok (pd_DataFrame
                  [[]; Z.of_nat <$> seq 40 20; Z.of_nat <$> seq 88 12]))
    as Hrun by (vm_compute; reflexivity).
  split; [exact Hrun|].
  exact (proj1 (rows_are_runs_of_the_signal _ _ _ _ _ _ Hrun)).
Defined.

Lemma timestamp_mode_is_index_mode_at_matches_witness :
  Forall2 (first_match_at (timestamps (ramp 10 10)))
    [1 # 2; 9 # 10]%Q [5; 9]%nat /\
  cont_var_peh (ramp 10 10) [1 # 2; 9 # 10]%Q (1 # 5, 1 # 2)%Q None false =
  cont_var_peh (ramp 10 10) (of_index <$> [5; 9]%nat) (1 # 5, 1 # 2)%Q
    None true.
Proof.
  assert (Forall2 (first_match_at (timestamps (ramp 10 10)))
            [1 # 2; 9 # 10]%Q [5; 9]%nat) as Hall.
  { repeat constructor; apply first_exact_match_Some; vm_compute;
      reflexivity. }
  split; [exact Hall|].
  exact (timestamp_mode_is_index_mode_at_matches _ _ _ _ None None Hall).
Defined.

(** The last event of a 10-sample recording, window 0.2 before and 0.5
    after: 2 samples before, the event, and nothing more. *)
Lemma window_past_the_end_is_cut_witness :
  F64.cont_var_peh (F64.ramp 10 10) [9 / 10]%float (1 / 5, 1 / 2)%float
    None false
  = Ok (pd_DataFrame [[7; 8; 9]%Z]) /\
  present (pd_DataFrame [[7; 8; 9]%Z]) 0
  = Some (drop 7 (F64.signal (F64.ramp 10 10))).
Proof.
  assert (F64.cont_var_peh (F64.ramp 10 10) [9 / 10]%float
            (1 / 5, 1 / 2)%float None false
          = Ok (pd_DataFrame [[7; 8; 9]%Z])) as Hrun
    by (vm_compute; reflexivity).
  split; [exact Hrun|].
  refine (window_past_the_end_is_cut (F64.ramp 10 10) [9 / 10]%float
            (1 / 5, 1 / 2)%float None false _ 0%nat (9 / 10)%float 9%float
            7 14 Hrun _ _ _ _ _ _).
  - reflexivity.
  - vm_compute; reflexivity.
  - vm_compute; reflexivity.
  - vm_compute; reflexivity.
  - lia.
  - vm_compute. discriminate.
Defined.

Lemma zero_width_window_has_no_columns_witness :
  cont_var_peh (ramp 10 10) [1 # 2; 9 # 10]%Q (0 # 1, 0 # 1)%Q None false
  = Ok (Frame 0 [[]; []]) /\
  (Frame 0 [[]; []] : DataFrame Z)
  = Frame 0 (replicate (length [1 # 2; 9 # 10]%Q) []).
Proof.
  assert (cont_var_peh (ramp 10 10) [1 # 2; 9 # 10]%Q (0 # 1, 0 # 1)%Q
            None false = Ok (Frame 0 [[]; []])) as Hrun
    by (vm_compute; reflexivity).
  split; [exact Hrun|].
  refine (zero_width_window_has_no_columns (ramp 10 10) [1 # 2; 9 # 10]%Q
            (0 # 1, 0 # 1)%Q None false _ _ _ Hrun); reflexivity.
Defined.

(** Z-scoring, then a low-pass filter, on one of two recordings. *)
Lemma chain_keeps_the_recording_witness :
  ({[1%positive := sawtooth; 2%positive := two_samples]} : heap)
    !! 1%positive = Some sawtooth /\
  exists o',
    (@chain numpy_sequential scipy_reference [ZScore; LowPassFilter 1%Q]
       1%positive {[1%positive := sawtooth; 2%positive := two_samples]}).2
      !! 1%positive = Some o' /\
    timestamps o' = timestamps sawtooth /\ sr o' = sr sawtooth /\
    name o' = name sawtooth /\ annotations o' = annotations sawtooth /\
    length (signal o') = length (signal sawtooth).
Proof.
  assert (({[1%positive := sawtooth; 2%positive := two_samples]} : heap)
            !! 1%positive = Some sawtooth) as Hself by reflexivity.
  split; [exact Hself|].
  exact (proj1 (proj2
    (@chain_keeps_the_recording numpy_sequential scipy_reference
       scipy_reference_shape [ZScore; LowPassFilter 1%Q] 1%positive
       _ _ _ _ Hself (surjective_pairing _)))).
Defined.

(** The reference design refuses the cutoff 5 at sampling rate 4: the
    z-scored signal stays, the last z-scoring is not run. *)
Lemma chain_stops_at_first_failure_witness :
  @chain numpy_sequential scipy_reference [ZScore; Debleach 5%Q; ZScore]
    1%positive {[1%positive := sawtooth]}
  = (Raise ValueError,
     (@chain numpy_sequential scipy_reference [ZScore] 1%positive
        {[1%positive := sawtooth]}).2).
Proof.
  refine (proj1 (@chain_stops_at_first_failure numpy_sequential
                   scipy_reference [ZScore] (Debleach 5%Q) [ZScore]
                   1%positive {[1%positive := sawtooth]} 1%positive
                   (@chain numpy_sequential scipy_reference [ZScore]
                      1%positive {[1%positive := sawtooth]}).2
                   ValueError
                   (@run_conditioning numpy_sequential scipy_reference
                      (Debleach 5%Q) 1%positive
                      (@chain numpy_sequential scipy_reference [ZScore]
                         1%positive {[1%positive := sawtooth]}).2).2
                   _ _)).
  - vm_compute; reflexivity.
  - vm_compute; reflexivity.
Defined.

Lemma windows_of_zscored_recording_witness :
  ({[1%positive := two_samples]} : heap) !! 1%positive = Some two_samples /\
  exists o',
    (@zscore numpy_sequential 1%positive {[1%positive := two_samples]}).2
      !! 1%positive = Some o' /\
    cont_var_peh o' [1 # 10]%Q (1 # 10, 1 # 10)%Q None false =
      match cont_var_peh two_samples [1 # 10]%Q (1 # 10, 1 # 10)%Q
              None false with
      | Ok df =>
          Ok (df_map
                (fun v =>
                   ((v - @population_mean numpy_sequential
                           (signal two_samples))
                    / @population_std numpy_sequential
                        (signal two_samples))%float) df)
      | Raise e => Raise e
      end.
Proof.
  assert (({[1%positive := two_samples]} : heap) !! 1%positive
          = Some two_samples) as Hself by reflexivity.
  split; [exact Hself|].
  exact (@windows_of_zscored_recording numpy_sequential _ _ _
           [1 # 10]%Q (1 # 10, 1 # 10)%Q None false Hself).
Defined.

(** A low-pass filter, then z-scoring: the table of two events, the second
    at the last sample, keeps its 2 rows and 5 columns. *)
Lemma conditioning_keeps_table_shape_witness :
  ({[1%positive := sawtooth]} : heap) !! 1%positive = Some sawtooth /\
  match cont_var_peh sawtooth [1 # 4; 19 # 4]%Q (1 # 1, 1 # 1)%Q None false
  with
  | Ok df => df_shape df = (2%nat, 5%nat)
  | Raise _ => False
  end /\
  exists o',
    (@chain numpy_sequential scipy_reference [LowPassFilter 1%Q; ZScore]
       1%positive {[1%positive := sawtooth]}).2 !! 1%positive = Some o' /\
    match cont_var_peh sawtooth [1 # 4; 19 # 4]%Q (1 # 1, 1 # 1)%Q None false,
          cont_var_peh o' [1 # 4; 19 # 4]%Q (1 # 1, 1 # 1)%Q None false with
    | Ok df, Ok df' => df_shape df = df_shape df'
    | Raise e, Raise e' => e = e'
    | _, _ => False
    end.
Proof.
  assert (({[1%positive := sawtooth]} : heap) !! 1%positive = Some sawtooth)
    as Hself by reflexivity.
  split; [exact Hself|]. split; [vm_compute; reflexivity|].
  destruct (@chain_effect numpy_sequential scipy_reference
              scipy_reference_shape [LowPassFilter 1%Q; ZScore] 1%positive
              _ _ _ _ Hself (surjective_pairing _))
    as (_ & o' & Ho' & _).
  exists o'. split; [exact Ho'|].
  exact (@conditioning_keeps_table_shape numpy_sequential scipy_reference
           scipy_reference_shape [LowPassFilter 1%Q; ZScore] 1%positive
           _ _ _ _ _ [1 # 4; 19 # 4]%Q (1 # 1, 1 # 1)%Q None false
           Hself (surjective_pairing _) Ho').
Defined.
